(** * tfpecker: a shallow embedding of [tfpecker.py] and its properties

    The development follows the source file top-down: the Python string
    primitives the packer relies on, the one regular expression it uses, a
    model of [pathlib] paths and of the directory tree, then the four methods
    of [TerraformPacker] ([find_relevant_files], [remove_terraform_comments],
    [warn_about_potential_secrets], [pack_files]).  The theorems come last.

    Conventions.
    - A Python [str] is a [string]; a character is a code point below 256
      (the Latin-1 range, on which [str.lower] and [str.isspace] are closed).
    - A [Path] is its tuple of parts, as [PurePosixPath.parts] gives it.
    - Mutation of [self.default_ignore] is explicit state passing; an
      exception is a [Raise] in the [result] type. *)

From Stdlib Require Import Ascii NArith List Permutation Sorted Lia.
From Stdlib Require String Decimal DecimalNat DecimalString.
From stdpp Require Import base gmap strings sorting.

Local Open Scope stdpp_scope.
Set Warnings "-register-all".

(** ** Python [str] primitives *)

Module PyStr.

(** The line feed, the quotation mark and the one-character strings made
    of them. *)
Definition LF : ascii := "010"%char.
Definition nl : string := String LF "".
Definition dq : string := String "034"%char "".

(** [s.startswith(p)]. *)
Definition startswith (s p : string) : bool := String.prefix p s.

(** [needle in hay]: [needle] occurs in [hay] at some offset. *)
Fixpoint contains (needle hay : string) : bool :=
  String.prefix needle hay ||
  match hay with
  | "" => false
  | String _ hay' => contains needle hay'
  end.

(** [str.lower] on one code point of the Latin-1 range: the letters A-Z
    and the accented capitals U+00C0-U+00DE (the multiplication sign
    U+00D7 excepted) move up by 32. *)
Definition lower_char (c : ascii) : ascii :=
  let n := N_of_ascii c in
  if ((65 <=? n) && (n <=? 90) ||
      (192 <=? n) && (n <=? 222) && negb (n =? 215))%N
  then ascii_of_N (n + 32)
  else c.

Fixpoint lower (s : string) : string :=
  match s with
  | "" => ""
  | String c s' => String (lower_char c) (lower s')
  end.

(** [str.isspace] on one code point of the Latin-1 range: TAB, LF, VT, FF,
    CR, the four separators FS, GS, RS, US, the space, NEL and the
    no-break space. *)
Definition isspace (c : ascii) : bool :=
  let n := N_of_ascii c in
  ((9 <=? n) && (n <=? 13) || (28 <=? n) && (n <=? 32) ||
   (n =? 133) || (n =? 160))%N.

Fixpoint lstrip (s : string) : string :=
  match s with
  | "" => ""
  | String c s' => if isspace c then lstrip s' else s
  end.

Fixpoint rstrip (s : string) : string :=
  match s with
  | "" => ""
  | String c s' =>
      match rstrip s' with
      | "" => if isspace c then "" else String c ""
      | r => String c r
      end
  end.

Definition strip (s : string) : string := rstrip (lstrip s).

(** [s.split('\n')]: never empty, one more field than there are line
    feeds. *)
Fixpoint split_lines (s : string) : list string :=
  match s with
  | "" => [""]
  | String c s' =>
      if Ascii.eqb c LF then "" :: split_lines s'
      else match split_lines s' with
           | [] => [String c ""]
           | l :: ls => String c l :: ls
           end
  end.

(** [sep.join(ls)]. *)
Definition join (sep : string) (ls : list string) : string :=
  String.concat sep ls.

(** [s * n]. *)
Fixpoint mul (s : string) (n : nat) : string :=
  match n with
  | O => ""
  | S n' => s +:+ mul s n'
  end.

(** [str(i)] for a non-negative [int]. *)
Definition of_nat (i : nat) : string :=
  DecimalString.NilEmpty.string_of_uint (Nat.to_uint i).

(** [len(s)]. *)
Definition len (s : string) : nat := String.length s.

End PyStr.

(** ** The regular expression of [remove_terraform_comments] *)

Module Re.

(** Does the text contain the closing delimiter (a star, then a slash)? *)
Fixpoint has_close (s : string) : bool :=
  match s with
  | String "*" (String "/" _) => true
  | String _ s' => has_close s'
  | "" => false
  end.

(** [re.sub(r'/\*.*?\*/', '', s, flags=re.DOTALL)].

    The scan goes from left to right.  Outside a match ([inside = false])
    the pattern matches at the current offset when the text starts with the
    opening delimiter and a closing delimiter follows it; the lazy [.*?]
    (with DOTALL, any character) then ends the match at the first closing
    delimiter.  Without a match the character is copied.  Inside a match
    ([inside = true]) characters are dropped up to and including the first
    closing delimiter, where the search for the next match resumes. *)
Fixpoint sub_block (inside : bool) (s : string) : string :=
  match s with
  | "" => ""
  | String c s' =>
      if inside then
        match s with
        | String "*" (String "/" rest) => sub_block false rest
        | _ => sub_block true s'
        end
      else
        match s with
        | String "/" (String "*" rest) =>
            if has_close rest then sub_block true rest
            else String c (sub_block false s')
        | _ => String c (sub_block false s')
        end
  end.

Definition sub_block_comments (s : string) : string := sub_block false s.

End Re.

(** ** Exceptions *)

Inductive exn : Type :=
  | KeyError (key : string)
  | ValueError (msg : string).

Inductive result (A : Type) : Type :=
  | Ok (a : A)
  | Raise (e : exn).
Arguments Ok {A} a.
Arguments Raise {A} e.

#[global] Instance result_ret : MRet result := fun A a => Ok a.
#[global] Instance result_bind : MBind result := fun A B f m =>
  match m with
  | Ok a => f a
  | Raise e => Raise e
  end.

(** ** [pathlib] paths and the directory tree *)

Module PathLib.

(** A path is the list of its parts; an absolute path has the root as its
    first part.  [Path(".")] has no part. *)
Definition Path : Type := list string.

(** [str(p)]. *)
Definition str (p : Path) : string :=
  match p with
  | [] => "."
  | "/" :: rest => "/" +:+ PyStr.join "/" rest
  | _ => PyStr.join "/" p
  end.

(** [p.name]: the last part. *)
Definition name (p : Path) : string := List.last p "".

(** [p.relative_to(base)]: the parts of [p] after those of [base]; a
    [ValueError] when [base] is not a leading part of [p]. *)
Fixpoint relative_to (p base : Path) : result Path :=
  match base, p with
  | [], _ => Ok p
  | b :: base', a :: p' =>
      if String.eqb a b then relative_to p' base'
      else Raise (ValueError "path is not in the subpath of base")
  | _ :: _, [] => Raise (ValueError "path is not in the subpath of base")
  end.

(** The order [sorted] uses on paths: part by part, each part by code
    points, a proper prefix first. *)
Fixpoint compare (p q : Path) : comparison :=
  match p, q with
  | [], [] => Eq
  | [], _ :: _ => Lt
  | _ :: _, [] => Gt
  | a :: p', b :: q' =>
      match String.compare a b with
      | Eq => compare p' q'
      | c => c
      end
  end.

Definition le (p q : Path) : Prop := compare p q <> Gt.

#[global] Instance le_dec : RelDecision le.
Proof. intros p q. unfold le. apply _. Defined.

(** [sorted(paths)]. *)
Definition sorted (paths : list Path) : list Path := merge_sort le paths.

(** [fnmatch(name, pat)] for the patterns the packer globs with: a star
    stands for any run of characters, every other character for itself. *)
Fixpoint fnmatch_pat (pat : string) : string -> bool :=
  match pat with
  | "" => fun name => match name with "" => true | _ => false end
  | String "*" pat' =>
      fix star (name : string) : bool :=
        fnmatch_pat pat' name ||
        match name with
        | "" => false
        | String _ name' => star name'
        end
  | String c pat' => fun name =>
      match name with
      | "" => false
      | String d name' => Ascii.eqb c d && fnmatch_pat pat' name'
      end
  end.

Definition fnmatch (name pat : string) : bool := fnmatch_pat pat name.

(** What reading a file gives: its text, or the text of the exception that
    [open] or [read] raised (a missing permission, bytes that are not
    UTF-8). *)
Inductive read_result : Type :=
  | ReadOk (content : string)
  | ReadError (msg : string).

(** The directory tree.  The top node is the process's view: its entries
    are those of the current directory, and the entry named by the root
    part, when there is one, leads to the root directory. *)
Inductive node : Type :=
  | File (data : read_result)
  | Dir (entries : list (string * node)).

Fixpoint find_entry (nm : string) (entries : list (string * node))
    : option node :=
  match entries with
  | [] => None
  | (k, n) :: rest => if String.eqb k nm then Some n else find_entry nm rest
  end.

Fixpoint lookup_path (fs : node) (p : Path) : option node :=
  match p with
  | [] => Some fs
  | nm :: p' =>
      match fs with
      | Dir entries =>
          match find_entry nm entries with
          | Some n => lookup_path n p'
          | None => None
          end
      | File _ => None
      end
  end.

(** The directories of the subtree at [p], [p] itself first, each with its
    entries. *)
Fixpoint iterate_directories (p : Path) (n : node)
    : list (Path * list (string * node)) :=
  match n with
  | File _ => []
  | Dir entries =>
      (p, entries) ::
      flat_map (fun e => iterate_directories (p ++ [e.1]) e.2) entries
  end.

(** The entries of one directory whose name matches. *)
Definition select (pattern : string) (d : Path * list (string * node))
    : list Path :=
  map (fun e => d.1 ++ [e.1])
      (List.filter (fun e => fnmatch e.1 pattern) d.2).

(** [base.rglob(pattern)]: every entry, file or directory, at any depth
    below [base] whose name matches. *)
Definition rglob (fs : node) (base : Path) (pattern : string) : list Path :=
  match lookup_path fs base with
  | Some n => flat_map (select pattern) (iterate_directories base n)
  | None => []
  end.

(** The text of the [OSError] that [open] raises on a directory or on a
    missing path. *)
Definition oserror (errno : string) (p : Path) : string :=
  errno +:+ ": '" +:+ str p +:+ "'".

(** [open(p, "r", encoding="utf-8").read()]. *)
Definition open_read (fs : node) (p : Path) : read_result :=
  match lookup_path fs p with
  | Some (File data) => data
  | Some (Dir _) => ReadError (oserror "[Errno 21] Is a directory" p)
  | None => ReadError (oserror "[Errno 2] No such file or directory" p)
  end.

End PathLib.

(** ** The packer *)

Import PathLib.

(** What [print] receives, one element per call.  The heading of the console
    warning block starts with a warning sign outside the modelled character
    range and is a constructor of its own. *)
Inductive console_line : Type :=
  | Text (s : string)
  | SecurityWarningHeading.

(** The attributes of a [TerraformPacker] instance.  [base_path] is the
    path that [__init__] builds from its string argument. *)
Record TerraformPacker : Type := {
  base_path : Path;
  output_file : string;
  remove_comments : bool;
  include_tfvars : bool;
  include_readme : bool;
  default_ignore : gset string
}.

(** The set literal of [__init__]. *)
Definition base_ignore : list string :=
  [ "*.tfstate"; "*.tfstate.backup"; ".terraform"; ".terraform.lock.hcl";
    "crash.log"; "override.tf"; "override.tf.json";
    ".git"; ".gitignore"; ".svn"; ".hg";
    ".idea"; ".vscode"; "*.swp"; "*.swo"; "*.swn"; "*~";
    ".DS_Store"; "Thumbs.db";
    "node_modules"; "vendor"; "__pycache__"; "*.pyc";
    "*.log"; "logs";
    ".env"; ".envrc"; ".direnv";
    "docs"; "*.md" ].

Definition tfvars_patterns : list string :=
  [ "*.tfvars"; "*.tfvars.json"; "*.auto.tfvars" ].

Definition readme_patterns : list string :=
  [ "README.md"; "README.markdown"; "Readme.md" ].

(** [TerraformPacker.__init__]. *)
Definition init (base : Path) (output : string)
    (remove_comments include_tfvars include_readme : bool)
    : TerraformPacker :=
  {| base_path := base;
     output_file := output;
     remove_comments := remove_comments;
     include_tfvars := include_tfvars;
     include_readme := include_readme;
     default_ignore :=
       if include_tfvars then list_to_set base_ignore
       else list_to_set base_ignore ∪ list_to_set tfvars_patterns |}.

Definition with_ignore (self : TerraformPacker) (ign : gset string)
    : TerraformPacker :=
  {| base_path := base_path self;
     output_file := output_file self;
     remove_comments := remove_comments self;
     include_tfvars := include_tfvars self;
     include_readme := include_readme self;
     default_ignore := ign |}.

(** [self.default_ignore.remove(x)]: a [KeyError] when [x] is absent. *)
Definition ignore_remove (x : string) (self : TerraformPacker)
    : result TerraformPacker :=
  if decide (x ∈ default_ignore self)
  then Ok (with_ignore self (default_ignore self ∖ {[ x ]}))
  else Raise (KeyError x).

(** [self.default_ignore.add(x)]. *)
Definition ignore_add (x : string) (self : TerraformPacker)
    : TerraformPacker :=
  with_ignore self ({[ x ]} ∪ default_ignore self).

(** [any(ignore in str(path) for ignore in self.default_ignore)]. *)
Definition is_ignored (ign : gset string) (path : Path) : bool :=
  existsb (fun ignore => PyStr.contains ignore (str path)) (elements ign).

(** One discovery pass: for each pattern, the paths that [rglob] yields and
    that the ignore set lets through, appended in that order. *)
Definition collect (self : TerraformPacker) (fs : node)
    (patterns : list string) : list Path :=
  flat_map
    (fun pattern =>
       List.filter (fun path => negb (is_ignored (default_ignore self) path))
                   (rglob fs (base_path self) pattern))
    patterns.

(** [find_relevant_files]: the sorted list, and the instance with the ignore
    set as the call leaves it. *)
Definition find_relevant_files (self : TerraformPacker) (fs : node)
    : result (list Path * TerraformPacker) :=
  let relevant_files := collect self fs ["*.tf"] in
  let relevant_files :=
    if include_tfvars self
    then relevant_files ++ collect self fs tfvars_patterns
    else relevant_files in
  if include_readme self then
    self' ← ignore_remove "*.md" self;
    let relevant_files := relevant_files ++ collect self' fs readme_patterns in
    Ok (sorted relevant_files, ignore_add "*.md" self')
  else Ok (sorted relevant_files, self).

(** [remove_terraform_comments]. *)
Definition remove_terraform_comments (content : string) : string :=
  let content := Re.sub_block_comments content in
  let lines := PyStr.split_lines content in
  let cleaned_lines :=
    List.filter
      (fun line => negb (PyStr.startswith (PyStr.lstrip line) "#")) lines in
  PyStr.join PyStr.nl cleaned_lines.

Definition keywords : list string :=
  [ "password"; "secret"; "key"; "token"; "credential"; "api_key";
    "access_key" ].

(** The f-string of one warning: what precedes the line text, and the
    whole. *)
Definition warning_head (i : nat) : string :=
  "Line " +:+ PyStr.of_nat i +:+ " might contain sensitive information: ".

Definition warning_text (i : nat) (line : string) : string :=
  warning_head i +:+ PyStr.strip line.

(** The loop of [warn_about_potential_secrets] over [enumerate(lines, i)]. *)
Fixpoint scan_lines (i : nat) (lines : list string) : list string :=
  match lines with
  | [] => []
  | line :: rest =>
      let lower_line := PyStr.lower line in
      if existsb (fun keyword => PyStr.contains keyword lower_line) keywords
      then warning_text i line :: scan_lines (S i) rest
      else scan_lines (S i) rest
  end.

(** [warn_about_potential_secrets]. *)
Definition warn_about_potential_secrets (content : string) : list string :=
  scan_lines 1 (PyStr.split_lines content).

(** *** [pack_files]

    The state of one run: the text written to the output file so far, the
    [all_warnings] list, and the lines printed so far.  The output file is
    taken to open for writing and to lie outside the files that are read. *)
Record run : Type := {
  output : string;
  all_warnings : list string;
  console : list console_line
}.

Definition write (s : string) (st : run) : run :=
  {| output := output st +:+ s;
     all_warnings := all_warnings st;
     console := console st |}.

Definition print (l : console_line) (st : run) : run :=
  {| output := output st;
     all_warnings := all_warnings st;
     console := console st ++ [l] |}.

Definition extend_warnings (ws : list string) (st : run) : run :=
  {| output := output st;
     all_warnings := all_warnings st ++ ws;
     console := console st |}.

(** [[f"{relative_path}: {w}" for w in warnings]]. *)
Definition tagged (relative_path : Path) (warnings : list string)
    : list string :=
  map (fun w => str relative_path +:+ ": " +:+ w) warnings.

(** [if warnings: all_warnings.extend(...)]. *)
Definition record_warnings (relative_path : Path) (warnings : list string)
    (st : run) : run :=
  match warnings with
  | [] => st
  | _ :: _ => extend_warnings (tagged relative_path warnings) st
  end.

(** The two lines of the security reminder. *)
Definition reminder : string :=
  "IMPORTANT: VERIFY FOR SECRETS!" +:+ PyStr.nl +:+
  "Double-check this file before sharing with LLM models to ensure no secrets or sensitive data are included."
  +:+ PyStr.nl.

(** [for warning in all_warnings: output.write(f"- {warning}\n")]. *)
Definition write_warning_list (ws : list string) (st : run) : run :=
  fold_left (fun st warning => write ("- " +:+ warning +:+ PyStr.nl) st) ws st.

(** [for warning in all_warnings: print(f"- {warning}")]. *)
Definition print_warning_list (ws : list string) (st : run) : run :=
  fold_left (fun st warning => print (Text ("- " +:+ warning)) st) ws st.

(** The first loop over the files: the scan of the raw contents. *)
Fixpoint prescan (self : TerraformPacker) (fs : node) (files : list Path)
    (st : run) : result run :=
  match files with
  | [] => Ok st
  | file :: rest =>
      relative_path ← relative_to file (base_path self);
      let st :=
        match open_read fs file with
        | ReadOk content =>
            let warnings := warn_about_potential_secrets content in
            record_warnings relative_path warnings st
        | ReadError e =>
            print (Text ("Error reading file for security check: " +:+ e)) st
        end in
      prescan self fs rest st
  end.

(** The block under [if all_warnings:] that closes the leading banner. *)
Definition report_warnings (st : run) : run :=
  match all_warnings st with
  | [] => st
  | _ :: _ =>
      let st :=
        write (PyStr.nl +:+ "Potential sensitive information detected:"
               +:+ PyStr.nl) st in
      let st := write_warning_list (all_warnings st) st in
      let st := print (Text (PyStr.nl +:+ PyStr.mul "!" 50)) st in
      let st := print SecurityWarningHeading st in
      let st := print_warning_list (all_warnings st) st in
      print (Text (PyStr.mul "!" 50 +:+ PyStr.nl)) st
  end.

(** The second loop: the repository structure. *)
Fixpoint write_structure (self : TerraformPacker) (files : list Path)
    (st : run) : result run :=
  match files with
  | [] => Ok st
  | file :: rest =>
      relative_path ← relative_to file (base_path self);
      write_structure self rest (write (str relative_path +:+ PyStr.nl) st)
  end.

(** What the third loop does between the header of a file and the blank
    separator: the body of the [try] and its handler. *)
Definition write_content (self : TerraformPacker) (fs : node)
    (file relative_path : Path) (st : run) : run :=
  match open_read fs file with
  | ReadOk content =>
      let content :=
        if remove_comments self then remove_terraform_comments content
        else content in
      let warnings := warn_about_potential_secrets content in
      let st := record_warnings relative_path warnings st in
      write content st
  | ReadError e => write ("Error reading file: " +:+ e) st
  end.

(** The third loop: the file contents. *)
Fixpoint write_contents (self : TerraformPacker) (fs : node)
    (files : list Path) (st : run) : result run :=
  match files with
  | [] => Ok st
  | file :: rest =>
      relative_path ← relative_to file (base_path self);
      let st := write ("File: " +:+ str relative_path +:+ PyStr.nl) st in
      let st :=
        write (PyStr.mul "-" (PyStr.len (str relative_path) + 6)
               +:+ PyStr.nl +:+ PyStr.nl) st in
      let st := write_content self fs file relative_path st in
      let st := write (PyStr.nl +:+ PyStr.nl) st in
      write_contents self fs rest st
  end.

(** The trailing banner. *)
Definition write_trailer (st : run) : run :=
  let st := write (PyStr.nl +:+ PyStr.mul "!" 50 +:+ PyStr.nl) st in
  let st := write reminder st in
  let st :=
    match all_warnings st with
    | [] => st
    | _ :: _ =>
        let st :=
          write (PyStr.nl +:+ "Potential sensitive information detected:"
                 +:+ PyStr.nl) st in
        write_warning_list (all_warnings st) st
    end in
  write (PyStr.mul "!" 50 +:+ PyStr.nl) st.

Definition start : run :=
  {| output := ""; all_warnings := []; console := [] |}.

(** [pack_files]: the final state of the run and the instance as the call
    leaves it, or the exception that escapes. *)
Definition pack_files (self : TerraformPacker) (fs : node)
    : result (run * TerraformPacker) :=
  '(files, self) ← find_relevant_files self fs;
  let st := start in
  let st :=
    write ("Terraform Infrastructure as Code Package (tfpecker output)"
           +:+ PyStr.nl) st in
  let st := write (PyStr.mul "=" 50 +:+ PyStr.nl +:+ PyStr.nl) st in
  let st := write (PyStr.mul "!" 50 +:+ PyStr.nl) st in
  let st := write reminder st in
  st ← prescan self fs files st;
  let st := report_warnings st in
  let st := write (PyStr.mul "!" 50 +:+ PyStr.nl +:+ PyStr.nl) st in
  let st := write ("Repository Structure" +:+ PyStr.nl) st in
  let st := write (PyStr.mul "=" 20 +:+ PyStr.nl +:+ PyStr.nl) st in
  st ← write_structure self files st;
  let st := write (PyStr.nl +:+ "File Contents" +:+ PyStr.nl) st in
  let st := write (PyStr.mul "=" 20 +:+ PyStr.nl +:+ PyStr.nl) st in
  st ← write_contents self fs files st;
  Ok (write_trailer st, self).

(** *** The layout of the output file

    The sections of the output file as the specification lays them out,
    written as functions of the warning lists and of what each file
    contributes.  They are compared below with what [pack_files] writes. *)

Module Layout.

Definition rule (c : string) (n : nat) : string := PyStr.mul c n +:+ PyStr.nl.

Definition title : string :=
  "Terraform Infrastructure as Code Package (tfpecker output)" +:+ PyStr.nl
  +:+ rule "=" 50 +:+ PyStr.nl.

Fixpoint bullets (ws : list string) : string :=
  match ws with
  | [] => ""
  | w :: ws' => ("- " +:+ w +:+ PyStr.nl) +:+ bullets ws'
  end.

Definition warning_list (ws : list string) : string :=
  match ws with
  | [] => ""
  | _ :: _ =>
      PyStr.nl +:+ "Potential sensitive information detected:" +:+ PyStr.nl
      +:+ bullets ws
  end.

Definition leading_banner (ws : list string) : string :=
  rule "!" 50 +:+ reminder +:+ warning_list ws +:+ rule "!" 50 +:+ PyStr.nl.

Fixpoint listing (rels : list Path) : string :=
  match rels with
  | [] => ""
  | r :: rels' => (str r +:+ PyStr.nl) +:+ listing rels'
  end.

Definition structure (rels : list Path) : string :=
  "Repository Structure" +:+ PyStr.nl +:+ rule "=" 20 +:+ PyStr.nl
  +:+ listing rels.

Definition block (rel : Path) (body : string) : string :=
  "File: " +:+ str rel +:+ PyStr.nl
  +:+ rule "-" (PyStr.len (str rel) + 6) +:+ PyStr.nl
  +:+ body +:+ PyStr.nl +:+ PyStr.nl.

Fixpoint blocks (bs : list (Path * string)) : string :=
  match bs with
  | [] => ""
  | (rel, body) :: bs' => block rel body +:+ blocks bs'
  end.

Definition contents (bs : list (Path * string)) : string :=
  PyStr.nl +:+ "File Contents" +:+ PyStr.nl +:+ rule "=" 20 +:+ PyStr.nl
  +:+ blocks bs.

Definition trailing_banner (ws : list string) : string :=
  PyStr.nl +:+ rule "!" 50 +:+ reminder +:+ warning_list ws
  +:+ rule "!" 50.

(** The console block printed when the pre-scan found something. *)
Definition console_block (ws : list string) : list console_line :=
  match ws with
  | [] => []
  | _ :: _ =>
      [Text (PyStr.nl +:+ PyStr.mul "!" 50); SecurityWarningHeading]
      ++ map (fun w => Text ("- " +:+ w)) ws
      ++ [Text (PyStr.mul "!" 50 +:+ PyStr.nl)]
  end.

End Layout.

(** What one discovered file contributes to a run. *)

Definition rel_of (self : TerraformPacker) (file : Path) : Path :=
  match relative_to file (base_path self) with
  | Ok rel => rel
  | Raise _ => []
  end.

Definition shown (self : TerraformPacker) (content : string) : string :=
  if remove_comments self then remove_terraform_comments content else content.

Definition prescan_warnings (self : TerraformPacker) (fs : node) (file : Path)
    : list string :=
  match open_read fs file with
  | ReadOk content =>
      tagged (rel_of self file) (warn_about_potential_secrets content)
  | ReadError _ => []
  end.

Definition prescan_errors (fs : node) (file : Path) : list console_line :=
  match open_read fs file with
  | ReadOk _ => []
  | ReadError e => [Text ("Error reading file for security check: " +:+ e)]
  end.

Definition content_warnings (self : TerraformPacker) (fs : node) (file : Path)
    : list string :=
  match open_read fs file with
  | ReadOk content =>
      tagged (rel_of self file)
             (warn_about_potential_secrets (shown self content))
  | ReadError _ => []
  end.

Definition content_body (self : TerraformPacker) (fs : node) (file : Path)
    : string :=
  match open_read fs file with
  | ReadOk content => shown self content
  | ReadError e => "Error reading file: " +:+ e
  end.

(** The inputs of the worked examples. *)

Module Examples.

(** The content of the comment-stripping example of the specification. *)
Definition commented : string :=
  "/* secret" +:+ PyStr.nl +:+ "key=1 */" +:+ PyStr.nl +:+ "# comment"
  +:+ PyStr.nl +:+ "resource " +:+ PyStr.dq +:+ "x" +:+ PyStr.dq +:+ " {}"
  +:+ PyStr.nl +:+ "// not a comment".

Definition commented_expected : string :=
  "resource " +:+ PyStr.dq +:+ "x" +:+ PyStr.dq +:+ " {}"
  +:+ PyStr.nl +:+ "// not a comment".

(** A directory with [a.tf], [b.tf] and [.terraform/cache.tf]. *)
Definition three_files : node :=
  Dir [ ("a.tf", File (ReadOk "a"));
        ("b.tf", File (ReadOk "b"));
        (".terraform", Dir [ ("cache.tf", File (ReadOk "c")) ]) ].

(** The same directory, named [docs], in the current directory. *)
Definition in_docs : node := Dir [ ("docs", three_files) ].

(** A directory with the single file [f.auto.tfvars]. *)
Definition auto_tfvars : node :=
  Dir [ ("f.auto.tfvars", File (ReadOk "x = 1")) ].

(** A directory with the single file [f.tf], whose only line is a comment
    that names a keyword. *)
Definition secret_comment : node :=
  Dir [ ("f.tf", File (ReadOk "# password")) ].

(** A directory with the single file [f.tf], one flagged line. *)
Definition secret_line : node :=
  Dir [ ("f.tf", File (ReadOk "password = 1")) ].

(** A directory with [a.tf], which cannot be read, and [b.tf]. *)
Definition unreadable : node :=
  Dir [ ("a.tf", File (ReadError "permission denied"));
        ("b.tf", File (ReadOk "x = 1")) ].

(** A directory with a README file, another Markdown file and a
    Terraform file. *)
Definition with_readme : node :=
  Dir [ ("README.md", File (ReadOk "# About"));
        ("notes.md", File (ReadOk "notes"));
        ("a.tf", File (ReadOk "x = 1")) ].

End Examples.

(** *** Vocabulary of the statements *)

(** Line [i] of a list of lines, counted from 1. *)
Definition line_at (lines : list string) (i : nat) : option string :=
  match i with
  | O => None
  | S j => nth_error lines j
  end.

(** The lowercased line has one of the keywords as a substring. *)
Definition flagged (line : string) : Prop :=
  exists keyword, In keyword keywords /\
    exists a b, PyStr.lower line = a +:+ keyword +:+ b.

(** The warnings of a scan that are about line [i]. *)
Definition reported_for (i : nat) (warnings : list string) : list string :=
  List.filter (fun w => PyStr.startswith w (warning_head i)) warnings.

(** [rel], read from the directory [n] downwards, names an entry: each part
    is the name of an entry of the directory reached so far. *)
Fixpoint entry_under (n : node) (rel : Path) : Prop :=
  match rel, n with
  | nm :: rel', Dir entries =>
      exists child, In (nm, child) entries /\
        match rel' with
        | [] => True
        | _ :: _ => entry_under child rel'
        end
  | _, _ => False
  end.

(** The paths that the enabled passes of [find_relevant_files] gather, in
    the order of the passes, before sorting: the third pass runs with the
    ignore set less its Markdown pattern. *)
Definition gathered (self : TerraformPacker) (fs : node) : list Path :=
  collect self fs ["*.tf"]
  ++ (if include_tfvars self then collect self fs tfvars_patterns else [])
  ++ (if include_readme self
      then collect (with_ignore self (default_ignore self ∖ {[ "*.md" ]}))
                   fs readme_patterns
      else []).

(** Each file lies below the base path of the instance. *)
Definition below (self : TerraformPacker) (files : list Path) : Prop :=
  Forall (fun file => exists rel,
            relative_to file (base_path self) = Ok rel) files.

(** The pattern has no star: it stands for itself. *)
Fixpoint no_star (pat : string) : Prop :=
  match pat with
  | "" => True
  | String c pat' => c <> "*"%char /\ no_star pat'
  end.

(** No character of the string is a space. *)
Fixpoint no_space (s : string) : Prop :=
  match s with
  | "" => True
  | String c s' => c <> " "%char /\ no_space s'
  end.

(** *** [main]

    [main] after [parser.parse_args()]: the parsed arguments, with [path]
    already a path, as for [base_path]. *)
Record Args : Type := {
  arg_path : Path;
  arg_output : string;
  arg_remove_comments : bool;
  arg_include_tfvars : bool;
  arg_include_readme : bool
}.

(** The defaults of the argument parser. *)
Definition default_args : Args :=
  {| arg_path := [];
     arg_output := "terraform_pecked.txt";
     arg_remove_comments := false;
     arg_include_tfvars := false;
     arg_include_readme := false |}.

(** What [main] prints: the lines of [pack_files], then its own two, of
    which the last starts with a warning sign and is a constructor of its
    own. *)
Inductive main_line : Type :=
  | Line (l : console_line)
  | VerifyReminder.

(** [main]: the final state of the run and everything printed. *)
Definition main (args : Args) (fs : node) : result (run * list main_line) :=
  let packer :=
    init (arg_path args) (arg_output args) (arg_remove_comments args)
         (arg_include_tfvars args) (arg_include_readme args) in
  '(st, _) ← pack_files packer fs;
  Ok (st,
      map Line (console st)
      ++ [ Line (Text ("Terraform code packed to " +:+ arg_output args));
           VerifyReminder ]).

(** *** More vocabulary *)

(** [x] occurs in [s]. *)
Definition substring (x s : string) : Prop :=
  exists a b, s = a +:+ x +:+ b.

(** No character of the string is a line feed. *)
Fixpoint no_lf (s : string) : Prop :=
  match s with
  | "" => True
  | String c s' => c <> PyStr.LF /\ no_lf s'
  end.

(** The test that [remove_terraform_comments] keeps a line by. *)
Definition kept_line (line : string) : bool :=
  negb (PyStr.startswith (PyStr.lstrip line) "#").

(** The keywords of the scan that are not made of another keyword. *)
Definition core_keywords : list string :=
  [ "password"; "secret"; "key"; "token"; "credential" ].

(** The suffixes of the names that the variable-file pass globs for. *)
Definition tfvars_suffixes : list string := [ ".tfvars"; ".tfvars.json" ].

(** * Properties *)

(** ** Strings *)

Section StringFacts.

Lemma app_nil_l (s : string) : "" +:+ s = s.
Proof. reflexivity. Qed.

Lemma app_cons (c : ascii) (a b : string) :
  String c a +:+ b = String c (a +:+ b).
Proof. reflexivity. Qed.

Lemma app_nil_r (s : string) : s +:+ "" = s.
Proof. induction s as [|c s IH]; [done|]. by rewrite app_cons, IH. Qed.

Lemma app_assoc (a b c : string) : (a +:+ b) +:+ c = a +:+ (b +:+ c).
Proof.
  induction a as [|x a IH]; [done|]. by rewrite !app_cons, IH.
Qed.

Lemma app_length (a b : string) :
  String.length (a +:+ b) = String.length a + String.length b.
Proof.
  induction a as [|x a IH]; [done|]. rewrite app_cons. simpl. by rewrite IH.
Qed.

(** [String.prefix] decides being a leading part. *)
Lemma prefix_spec (p s : string) :
  String.prefix p s = true <-> exists b, s = p +:+ b.
Proof.
  revert s. induction p as [|c p IH]; intros s.
  - split; [intros _; by exists s|]. by destruct s.
  - destruct s as [|d s]; simpl.
    + split; [done|]. intros [b Hb]. by rewrite app_cons in Hb.
    + destruct (ascii_dec c d) as [->|Hne].
      * rewrite IH. split; intros [b Hb]; exists b.
        -- by rewrite app_cons, Hb.
        -- rewrite app_cons in Hb. by injection Hb.
      * split; [done|]. intros [b Hb]. rewrite app_cons in Hb.
        injection Hb as Hd _. congruence.
Qed.

(** The [in] operator decides being a substring. *)
Lemma contains_spec (p s : string) :
  PyStr.contains p s = true <-> exists a b, s = a +:+ p +:+ b.
Proof.
  induction s as [|c s IH]; cbn [PyStr.contains].
  - rewrite orb_false_r, prefix_spec. split.
    + intros [b Hb]. by exists "", b.
    + intros [a [b Hab]]. destruct a; [by exists b|].
      by rewrite app_cons in Hab.
  - rewrite orb_true_iff, prefix_spec, IH. split.
    + intros [[b Hb]|[a [b Hab]]].
      * by exists "", b.
      * exists (String c a), b. by rewrite app_cons, Hab.
    + intros [a [b Hab]]. destruct a as [|x a].
      * left. by exists b.
      * right. rewrite app_cons in Hab. injection Hab as _ Hs.
        by exists a, b.
Qed.

Lemma contains_false (p s : string) :
  PyStr.contains p s = false -> forall a b, s <> a +:+ p +:+ b.
Proof.
  intros Hc a b ->.
  assert (PyStr.contains p (a +:+ p +:+ b) = true) as Ht
    by (apply contains_spec; eauto).
  congruence.
Qed.

Lemma split_lines_nonempty (s : string) : PyStr.split_lines s <> [].
Proof.
  induction s as [|c s IH]; simpl; [done|].
  destruct (Ascii.eqb c PyStr.LF); [done|].
  by destruct (PyStr.split_lines s).
Qed.

(** Joining what [split] gave restores the text. *)
Lemma join_split_lines (s : string) :
  PyStr.join PyStr.nl (PyStr.split_lines s) = s.
Proof.
  unfold PyStr.join. induction s as [|c s IH]; simpl; [done|].
  destruct (Ascii.eqb_spec c PyStr.LF) as [->|Hne].
  - pose proof (split_lines_nonempty s) as Hs.
    simpl. destruct (PyStr.split_lines s) as [|l ls]; [done|].
    rewrite IH. reflexivity.
  - pose proof (split_lines_nonempty s) as Hs.
    destruct (PyStr.split_lines s) as [|l ls]; [done|].
    simpl in *. destruct ls; [by rewrite IH|].
    rewrite <- IH. reflexivity.
Qed.

Lemma filter_all {A} (f : A -> bool) (l : list A) :
  (forall x, In x l -> f x = true) -> List.filter f l = l.
Proof.
  induction l as [|x l IH]; intros H; simpl; [done|].
  rewrite (H x) by (by left). f_equal. apply IH. intros y Hy. apply H.
  by right.
Qed.

End StringFacts.

(** ** Comment stripping *)

Section Comments.

(** Without an opening delimiter the substitution finds no match. *)
Lemma sub_block_no_open (s : string) :
  (forall a b, s <> a +:+ "/*" +:+ b) -> Re.sub_block false s = s.
Proof.
  induction s as [|c s IH]; intros Hno; [done|].
  assert (Re.sub_block false s = s) as Hs.
  { apply IH. intros a b ->. apply (Hno (String c a) b).
    by rewrite app_cons. }
  assert (forall rest, String c s <> "/*" +:+ rest) as Hhd.
  { intros rest Heq. apply (Hno "" rest). by rewrite app_nil_l. }
  cbn [Re.sub_block].
  destruct (ascii_dec c "/") as [->|Hc].
  - destruct s as [|d s]; [done|].
    destruct (ascii_dec d "*") as [->|Hd].
    + exfalso. by apply (Hhd s).
    + destruct d as [[] [] [] [] [] [] [] []]; try congruence;
        by rewrite Hs.
  - destruct c as [[] [] [] [] [] [] [] []]; try congruence;
      by rewrite Hs.
Qed.

End Comments.

(** C3, as the code has it: on the example content of the specification
    (a two-line block comment, a hash line, a resource line and a
    double-slash line) comment stripping removes the block comment and the
    hash line and keeps the double-slash line, and the line feed that
    followed the block comment stays: the result is the expected text after
    an empty first line. *)
Theorem remove_terraform_comments_example :
  remove_terraform_comments Examples.commented
  = PyStr.nl +:+ Examples.commented_expected.
Proof. vm_compute. reflexivity. Qed.

(** C3, as the specification states it, fails: the result is not the
    expected text itself. *)
Lemma remove_terraform_comments_example_not_exact :
  remove_terraform_comments Examples.commented
  = PyStr.nl +:+ Examples.commented_expected
  /\ remove_terraform_comments Examples.commented
     <> Examples.commented_expected.
Proof. split; [vm_compute; reflexivity | vm_compute; discriminate]. Qed.

(** C9: [remove_terraform_comments] returns unchanged every content that has
    no occurrence of the opening delimiter of a block comment and no line
    that starts with a hash once its leading whitespace is stripped. *)
Theorem remove_terraform_comments_comment_free (content : string) :
  (forall a b, content <> a +:+ "/*" +:+ b) ->
  (forall line, In line (PyStr.split_lines content) ->
     PyStr.startswith (PyStr.lstrip line) "#" = false) ->
  remove_terraform_comments content = content.
Proof.
  intros Hopen Hhash. unfold remove_terraform_comments, Re.sub_block_comments.
  rewrite (sub_block_no_open content Hopen).
  rewrite filter_all; [apply join_split_lines|].
  intros line Hline. by rewrite (Hhash line Hline).
Qed.

Lemma remove_terraform_comments_comment_free_witness :
  let content :=
    "resource x {" +:+ PyStr.nl +:+ "  // a * b / c" +:+ PyStr.nl +:+ "}"
    +:+ PyStr.nl in
  (forall a b, content <> a +:+ "/*" +:+ b) /\
  (forall line, In line (PyStr.split_lines content) ->
     PyStr.startswith (PyStr.lstrip line) "#" = false) /\
  remove_terraform_comments content = content.
Proof.
  intros content.
  assert (forall a b, content <> a +:+ "/*" +:+ b) as H1
    by (apply contains_false; vm_compute; reflexivity).
  assert (forall line, In line (PyStr.split_lines content) ->
            PyStr.startswith (PyStr.lstrip line) "#" = false) as H2.
  { intros line Hin. vm_compute in Hin.
    destruct Hin as [<-|[<-|[<-|[<-|[]]]]]; vm_compute; reflexivity. }
  split; [exact H1|]. split; [exact H2|].
  exact (remove_terraform_comments_comment_free content H1 H2).
Defined.

(** C10: [remove_terraform_comments] is not idempotent.  On the text
    [A//*c*/*B*/C] one application removes the comment around [c] and
    leaves a text in which the characters on both sides of it form a new
    block comment; the second application removes that one too. *)
Theorem remove_terraform_comments_not_idempotent :
  remove_terraform_comments "A//*c*/*B*/C" = "A/*B*/C" /\
  remove_terraform_comments (remove_terraform_comments "A//*c*/*B*/C") = "AC" /\
  exists content,
    remove_terraform_comments (remove_terraform_comments content)
    <> remove_terraform_comments content.
Proof.
  split; [vm_compute; reflexivity|]. split; [vm_compute; reflexivity|].
  exists "A//*c*/*B*/C". vm_compute. discriminate.
Qed.

(** ** The secret scan *)

Section Scan.

Lemma string_of_uint_no_space (d : Decimal.uint) :
  no_space (DecimalString.NilEmpty.string_of_uint d).
Proof. induction d; simpl; auto; split; auto; discriminate. Qed.

Lemma of_nat_inj (i j : nat) : PyStr.of_nat i = PyStr.of_nat j -> i = j.
Proof.
  unfold PyStr.of_nat. intros H. apply DecimalNat.Unsigned.to_uint_inj.
  apply (f_equal DecimalString.NilEmpty.uint_of_string) in H.
  rewrite !DecimalString.NilEmpty.usu in H. congruence.
Qed.

(** Two runs of non-space characters, each followed by a space, that start
    the same text are the same run. *)
Lemma no_space_run (d1 d2 r1 r2 : string) :
  no_space d1 -> no_space d2 ->
  d1 +:+ String " " r1 = d2 +:+ String " " r2 -> d1 = d2.
Proof.
  revert d2. induction d1 as [|c d1 IH]; intros [|c2 d2] H1 H2 Heq;
    rewrite ?app_cons, ?app_nil_l in Heq.
  - done.
  - injection Heq as Hc _. destruct H2 as [Hne _]. congruence.
  - injection Heq as Hc _. destruct H1 as [Hne _]. congruence.
  - injection Heq as -> Heq. f_equal. destruct H1, H2. eauto.
Qed.

(** A warning about line [j] starts like a warning about line [i] exactly
    when [i = j]. *)
Lemma startswith_warning_head (i j : nat) (text : string) :
  PyStr.startswith (warning_head j +:+ text) (warning_head i)
  = bool_decide (i = j).
Proof.
  case_bool_decide as Hij.
  - subst j. apply prefix_spec. by exists text.
  - apply not_true_is_false. intros [b Hb]%prefix_spec. apply Hij.
    unfold warning_head in Hb. rewrite !app_assoc in Hb.
    rewrite !app_cons, !app_nil_l in Hb.
    injection Hb as Hb. symmetry. apply of_nat_inj.
    eapply no_space_run; [apply string_of_uint_no_space ..|].
    exact Hb.
Qed.

Lemma flagged_spec (line : string) :
  existsb (fun keyword => PyStr.contains keyword (PyStr.lower line)) keywords
  = true <-> flagged line.
Proof.
  unfold flagged. rewrite existsb_exists.
  split; intros [k [Hk Hc]]; exists k; (split; [done|]);
    by apply contains_spec.
Qed.

Lemma flagged_dec (line : string) : {flagged line} + {~ flagged line}.
Proof.
  destruct (existsb (fun keyword => PyStr.contains keyword (PyStr.lower line))
                    keywords) eqn:E.
  - left. by apply flagged_spec.
  - right. intros H%flagged_spec. congruence.
Qed.

(** The warnings about line [i] in the scan of [lines] numbered from [n]. *)
Lemma reported_for_scan_lines (i : nat) (lines : list string) (n : nat) :
  reported_for i (scan_lines n lines) =
  if decide (i < n) then []
  else match nth_error lines (i - n) with
       | Some line =>
           if flagged_dec line then [warning_text i line] else []
       | None => []
       end.
Proof.
  revert n. induction lines as [|line rest IH]; intros n.
  - simpl. case_decide; [done|]. by destruct (i - n).
  - cbn [scan_lines].
    assert (reported_for i (scan_lines (S n) rest) =
            if decide (i <= n) then []
            else match nth_error rest (i - S n) with
                 | Some line =>
                     if flagged_dec line then [warning_text i line] else []
                 | None => []
                 end) as Hrest.
    { rewrite IH. repeat case_decide; (done || lia). }
    destruct (flagged_dec line) as [Hf|Hf].
    + apply flagged_spec in Hf as Hb. rewrite Hb.
      unfold reported_for in *. cbn [List.filter].
      unfold warning_text at 1. rewrite startswith_warning_head, Hrest.
      case_bool_decide as Hin.
      * subst n. rewrite Nat.sub_diag. simpl.
        repeat case_decide; try lia.
        destruct (flagged_dec line); [done|contradiction].
      * repeat case_decide; try lia; try done.
        replace (i - n) with (S (i - S n)) by lia. done.
    + assert (existsb (fun keyword =>
                PyStr.contains keyword (PyStr.lower line)) keywords = false)
        as Hb.
      { apply not_true_is_false. by intros ?%flagged_spec. }
      rewrite Hb, Hrest.
      repeat case_decide; try lia; try done.
      * assert (i = n) as -> by lia. rewrite Nat.sub_diag. simpl.
        destruct (flagged_dec line); [contradiction|done].
      * replace (i - n) with (S (i - S n)) by lia. done.
Qed.

End Scan.

(** C1: in the result of [warn_about_potential_secrets], the warnings about
    line [i] (lines counted from 1) are: the single warning made of the line
    number and of the trimmed line in its original case, when the lowercased
    line has one of the seven keywords as a substring; none otherwise.  So a
    warning is reported for a line exactly when the line is flagged, and
    never more than one, however many keywords the line matches. *)
Theorem warn_about_potential_secrets_per_line (content : string) (i : nat) :
  let lines := PyStr.split_lines content in
  let reported := reported_for i (warn_about_potential_secrets content) in
  keywords = ["password"; "secret"; "key"; "token"; "credential"; "api_key";
              "access_key"] /\
  (reported <> [] <-> exists line, line_at lines i = Some line /\ flagged line) /\
  (forall line, line_at lines i = Some line -> flagged line ->
     reported =
       ["Line " +:+ PyStr.of_nat i +:+ " might contain sensitive information: "
        +:+ PyStr.strip line]) /\
  length reported <= 1.
Proof.
  intros lines reported. split; [reflexivity|].
  assert (reported =
          match line_at lines i with
          | Some line => if flagged_dec line then [warning_text i line] else []
          | None => []
          end) as Hrep.
  { unfold reported, warn_about_potential_secrets.
    rewrite reported_for_scan_lines. fold lines.
    destruct i as [|j]; simpl; [done|]. by rewrite Nat.sub_0_r. }
  repeat split.
  - intros Hne. rewrite Hrep in Hne.
    destruct (line_at lines i) as [line|]; [|done].
    destruct (flagged_dec line); [|done]. by exists line.
  - intros [line [Hl Hf]]. rewrite Hrep, Hl.
    by destruct (flagged_dec line).
  - intros line Hl Hf. rewrite Hrep, Hl.
    destruct (flagged_dec line); [|done].
    unfold warning_text, warning_head. by rewrite !app_assoc.
  - rewrite Hrep. destruct (line_at lines i) as [line|]; [|simpl; lia].
    destruct (flagged_dec line); simpl; lia.
Qed.

(** ** Paths *)

Section PathOrder.

Lemma string_compare_refl (s : string) : String.compare s s = Eq.
Proof.
  induction s as [|c s IH]; simpl; [done|].
  unfold Ascii.compare. by rewrite N.compare_refl.
Qed.

Lemma string_compare_lt_trans (a b c : string) :
  String.compare a b = Lt -> String.compare b c = Lt ->
  String.compare a c = Lt.
Proof.
  intros Hab Hbc.
  assert (String.le a c) as Hac.
  { transitivity b; unfold String.le, String.leb; [by rewrite Hab|].
    by rewrite Hbc. }
  unfold String.le, String.leb in Hac.
  destruct (String.compare a c) eqn:E; [|done|done].
  apply String.compare_eq_iff in E as ->.
  rewrite String.compare_antisym, Hbc in Hab. discriminate.
Qed.

Lemma compare_refl (p : Path) : PathLib.compare p p = Eq.
Proof.
  induction p as [|a p IH]; simpl; [done|].
  by rewrite string_compare_refl.
Qed.

Lemma compare_eq (p q : Path) : PathLib.compare p q = Eq -> p = q.
Proof.
  revert q. induction p as [|a p IH]; intros [|b q]; simpl; try done.
  destruct (String.compare a b) eqn:E; try done.
  apply String.compare_eq_iff in E as ->. intros H. f_equal. by apply IH.
Qed.

Lemma compare_antisym (p q : Path) :
  PathLib.compare p q = CompOpp (PathLib.compare q p).
Proof.
  revert q. induction p as [|a p IH]; intros [|b q]; simpl; try done.
  rewrite (String.compare_antisym a b).
  destruct (String.compare b a); simpl; auto.
Qed.

Lemma compare_lt_trans (p q r : Path) :
  PathLib.compare p q = Lt -> PathLib.compare q r = Lt ->
  PathLib.compare p r = Lt.
Proof.
  revert q r. induction p as [|a p IH]; intros [|b q] [|c r]; simpl;
    try done.
  destruct (String.compare a b) eqn:Eab; try done;
    destruct (String.compare b c) eqn:Ebc; try done; intros Hpq Hqr.
  - apply String.compare_eq_iff in Eab as ->. rewrite Ebc. eauto.
  - apply String.compare_eq_iff in Eab as ->. by rewrite Ebc.
  - apply String.compare_eq_iff in Ebc as <-. by rewrite Eab.
  - by rewrite (string_compare_lt_trans a b c).
Qed.

#[global] Instance le_total : Total PathLib.le.
Proof.
  intros p q. unfold PathLib.le. rewrite (compare_antisym q p).
  destruct (PathLib.compare p q); simpl; auto.
Qed.

#[global] Instance le_trans : Transitive PathLib.le.
Proof.
  intros p q r. unfold PathLib.le.
  destruct (PathLib.compare p q) eqn:Epq; [| |done];
    destruct (PathLib.compare q r) eqn:Eqr; try done; intros _ _.
  - apply compare_eq in Epq as ->. by rewrite Eqr.
  - apply compare_eq in Epq as ->. by rewrite Eqr.
  - apply compare_eq in Eqr as <-. by rewrite Epq.
  - by rewrite (compare_lt_trans p q r).
Qed.

#[global] Instance le_antisym : AntiSymm (=) PathLib.le.
Proof.
  intros p q. unfold PathLib.le. rewrite (compare_antisym q p).
  destruct (PathLib.compare p q) eqn:E; simpl; try done.
  intros _ _. by apply compare_eq.
Qed.

(** [sorted] returns the one sorted arrangement of its argument. *)
Lemma sorted_spec (l : list Path) :
  Sorted PathLib.le (sorted l) /\ sorted l ≡ₚ l.
Proof.
  split; [apply Sorted_merge_sort, _ | apply merge_sort_Permutation].
Qed.

Lemma sorted_unique (l l' : list Path) :
  Sorted PathLib.le l' -> l' ≡ₚ l -> sorted l = l'.
Proof.
  intros Hs Hp. destruct (sorted_spec l) as [Hs' Hp'].
  apply (Sorted_unique PathLib.le); [done..|]. by rewrite Hp'.
Qed.

Lemma relative_to_app (base rel : Path) :
  relative_to (base ++ rel) base = Ok rel.
Proof.
  induction base as [|b base IH]; simpl.
  - by destruct rel.
  - by rewrite String.eqb_refl.
Qed.

End PathOrder.

(** ** Globbing *)

Section Glob.

Lemma fnmatch_pat_cons (c : ascii) (pat name : string) :
  c <> "*"%char ->
  fnmatch_pat (String c pat) name =
  match name with
  | "" => false
  | String d name' => Ascii.eqb c d && fnmatch_pat pat name'
  end.
Proof.
  intros Hc. destruct c as [[] [] [] [] [] [] [] []];
    try reflexivity; congruence.
Qed.

(** A pattern without a star matches its own text only. *)
Lemma fnmatch_literal (pat : string) :
  no_star pat -> forall name, fnmatch_pat pat name = true <-> name = pat.
Proof.
  induction pat as [|c pat IH]; intros Hpat name.
  - destruct name; simpl; split; (done || discriminate).
  - destruct Hpat as [Hc Hpat]. rewrite (fnmatch_pat_cons c pat name Hc).
    destruct name as [|d name]; [split; discriminate|].
    rewrite andb_true_iff, (IH Hpat), Ascii.eqb_eq. split.
    + by intros [-> ->].
    + intros H. by injection H as -> ->.
Qed.

(** A leading star matches any leading part of the name. *)
Lemma fnmatch_star (pat name : string) :
  fnmatch_pat (String "*" pat) name = true <->
  exists a b, name = a +:+ b /\ fnmatch_pat pat b = true.
Proof.
  induction name as [|d name IH].
  - simpl. rewrite orb_false_r. split.
    + intros H. by exists "", "".
    + intros [a [b [Hab H]]]. destruct a; [|done].
      rewrite app_nil_l in Hab. by subst b.
  - change (fnmatch_pat (String "*" pat) (String d name))
      with (fnmatch_pat pat (String d name)
            || fnmatch_pat (String "*" pat) name).
    rewrite orb_true_iff, IH. split.
    + intros [H|[a [b [-> H]]]].
      * by exists "", (String d name).
      * by exists (String d a), b.
    + intros [a [b [Hab H]]]. destruct a as [|x a].
      * left. rewrite app_nil_l in Hab. by subst b.
      * right. rewrite app_cons in Hab. injection Hab as -> ->.
        by exists a, b.
Qed.

(** The patterns of the three discovery passes. *)
Lemma fnmatch_suffix (suffix name : string) :
  no_star suffix ->
  fnmatch name (String "*" suffix) = true <->
  exists stem, name = stem +:+ suffix.
Proof.
  intros Hs. unfold fnmatch. rewrite fnmatch_star. split.
  - intros [a [b [-> H]]]. apply (fnmatch_literal suffix Hs) in H as ->.
    by exists a.
  - intros [stem ->]. exists stem, suffix. split; [done|].
    by apply fnmatch_literal.
Qed.

Lemma node_induction (P : node -> Prop) :
  (forall data, P (File data)) ->
  (forall entries, Forall (fun e => P e.2) entries -> P (Dir entries)) ->
  forall n, P n.
Proof.
  intros HF HD. fix IH 1. intros [data|entries]; [apply HF|].
  apply HD. induction entries as [|[k n] entries IHes]; constructor.
  - apply IH.
  - apply IHes.
Qed.

Lemma entry_under_nonempty (n : node) (rel : Path) :
  entry_under n rel -> rel <> [].
Proof. by destruct rel. Qed.

Lemma last_app_nonempty (base rel : Path) :
  rel <> [] -> name (base ++ rel) = List.last rel "".
Proof.
  intros Hrel. unfold name.
  induction base as [|b base IH]; [done|].
  simpl. rewrite IH. by destruct (base ++ rel) eqn:E; [destruct base, rel|].
Qed.

Lemma in_select (pattern : string) (d : Path) (entries : list (string * node))
    (p : Path) :
  In p (select pattern (d, entries)) <->
  exists nm child, In (nm, child) entries /\ p = d ++ [nm] /\
                   fnmatch nm pattern = true.
Proof.
  unfold select. rewrite in_map_iff. simpl. split.
  - intros [[nm child] [<- [Hin Hm]%filter_In]]. by exists nm, child.
  - intros [nm [child [Hin [-> Hm]]]]. exists (nm, child).
    split; [done|]. by apply filter_In.
Qed.

(** What the walk below a directory yields, and nothing else. *)
Lemma walk_sound (pattern : string) (n : node) :
  forall (d p : Path),
    In p (flat_map (select pattern) (iterate_directories d n)) ->
    exists rel, p = d ++ rel /\ entry_under n rel /\
                fnmatch (List.last rel "") pattern = true.
Proof.
  induction n as [data|entries IH] using node_induction; intros d p Hin.
  - destruct Hin.
  - cbn [iterate_directories flat_map] in Hin.
    apply in_app_or in Hin as [Hin|Hin].
    + apply in_select in Hin as [nm [child [He [-> Hm]]]].
      exists [nm]. repeat split; [|done]. by exists child.
    + apply in_flat_map in Hin as [x [Hx Hp]].
      apply in_flat_map in Hx as [[nm child] [He Hx]]. simpl in Hx.
      rewrite Forall_forall in IH.
      destruct (IH (nm, child) ltac:(by apply list_elem_of_In)
                   (d ++ [nm]) p) as [rel [-> [Hu Hm]]].
      { apply in_flat_map. by exists x. }
      pose proof (entry_under_nonempty _ _ Hu) as Hne.
      exists (nm :: rel). rewrite <- List.app_assoc. split; [done|].
      destruct rel as [|r rel]; [done|]. split; [|done].
      by exists child.
Qed.

Lemma walk_complete (pattern : string) (rel : Path) :
  forall (n : node) (d : Path),
    entry_under n rel ->
    fnmatch (List.last rel "") pattern = true ->
    In (d ++ rel) (flat_map (select pattern) (iterate_directories d n)).
Proof.
  induction rel as [|nm rel IH]; intros n d Hu Hm; [done|].
  destruct n as [data|entries]; [done|].
  destruct Hu as [child [He Hu]].
  cbn [iterate_directories flat_map]. apply in_or_app.
  destruct rel as [|r rel].
  - left. apply in_select. by exists nm, child.
  - right. specialize (IH child (d ++ [nm]) Hu Hm).
    rewrite <- List.app_assoc in IH. simpl in IH.
    apply in_flat_map in IH as [x [Hx Hp]].
    apply in_flat_map. exists x. split; [|done].
    apply in_flat_map. by exists (nm, child).
Qed.

(** [rglob] yields the paths of the entries below [base] whose name
    matches: nothing else, and each of them. *)
Lemma rglob_spec (fs : node) (base : Path) (pattern : string) (p : Path) :
  In p (rglob fs base pattern) <->
  exists n rel, lookup_path fs base = Some n /\ p = base ++ rel /\
                entry_under n rel /\ fnmatch (name p) pattern = true.
Proof.
  unfold rglob. split.
  - destruct (lookup_path fs base) as [n|]; [|done]. intros Hin.
    apply walk_sound in Hin as [rel [-> [Hu Hm]]].
    exists n, rel. repeat split; try done.
    by rewrite last_app_nonempty by by eapply entry_under_nonempty.
  - intros [n [rel [-> [-> [Hu Hm]]]]].
    rewrite last_app_nonempty in Hm by by eapply entry_under_nonempty.
    by apply walk_complete.
Qed.

End Glob.

(** ** Discovery *)

Section Discovery.

Lemma with_ignore_same (self : TerraformPacker) :
  with_ignore self (default_ignore self) = self.
Proof. by destruct self. Qed.

(** Removing the Markdown pattern and adding it back restores the
    instance. *)
Lemma ignore_add_remove (self : TerraformPacker) :
  "*.md" ∈ default_ignore self ->
  ignore_add "*.md" (with_ignore self (default_ignore self ∖ {[ "*.md" ]}))
  = self.
Proof.
  intros Hin. unfold ignore_add, with_ignore. simpl.
  rewrite <- (union_difference_singleton_L _ _ Hin). by destruct self.
Qed.

(** [find_relevant_files] returns the sorted gathering and leaves the
    instance as it found it. *)
Lemma find_relevant_files_ok (self : TerraformPacker) (fs : node) :
  (include_readme self = true -> "*.md" ∈ default_ignore self) ->
  find_relevant_files self fs = Ok (sorted (gathered self fs), self).
Proof.
  intros Hmd. unfold find_relevant_files, gathered.
  destruct (include_readme self) eqn:Er.
  - unfold ignore_remove. rewrite decide_True by auto. cbn.
    rewrite ignore_add_remove by auto.
    destruct (include_tfvars self); by rewrite <- ?List.app_assoc.
  - destruct (include_tfvars self); by rewrite ?List.app_nil_r.
Qed.

(** Without the Markdown pattern in the set, a call that discovers README
    files raises. *)
Lemma find_relevant_files_raise (self : TerraformPacker) (fs : node) :
  include_readme self = true -> "*.md" ∉ default_ignore self ->
  find_relevant_files self fs = Raise (KeyError "*.md").
Proof.
  intros Er Hmd. unfold find_relevant_files, ignore_remove.
  rewrite Er. by rewrite decide_False.
Qed.

Lemma find_relevant_files_inv (self self' : TerraformPacker) (fs : node)
    (files : list Path) :
  find_relevant_files self fs = Ok (files, self') ->
  (include_readme self = true -> "*.md" ∈ default_ignore self) /\
  self' = self /\ files = sorted (gathered self fs).
Proof.
  intros Hf.
  destruct (decide (include_readme self = true -> "*.md" ∈ default_ignore self))
    as [Hmd|Hmd].
  - rewrite (find_relevant_files_ok self fs Hmd) in Hf.
    injection Hf as <- <-. done.
  - destruct (include_readme self) eqn:Er.
    + rewrite find_relevant_files_raise in Hf; [done..|]. tauto.
    + exfalso. apply Hmd. done.
Qed.

Lemma init_has_md (base : Path) (out : string) (rc tv ir : bool) :
  "*.md" ∈ default_ignore (init base out rc tv ir).
Proof.
  unfold init. cbn [default_ignore]. destruct tv; [|apply elem_of_union_l];
    apply elem_of_list_to_set, (bool_decide_unpack _); by vm_compute.
Qed.

(** The ignore test decides whether some pattern of the set is a substring
    of the path string. *)
Lemma is_ignored_spec (ign : gset string) (p : Path) :
  is_ignored ign p = true <->
  exists pattern, pattern ∈ ign /\ exists a b, str p = a +:+ pattern +:+ b.
Proof.
  unfold is_ignored. rewrite existsb_exists.
  split; intros [pattern [Hin Hc]]; exists pattern.
  - split; [by apply elem_of_elements, list_elem_of_In|].
    by apply contains_spec.
  - split; [by apply list_elem_of_In, elem_of_elements|].
    by apply contains_spec.
Qed.

Lemma in_collect (self : TerraformPacker) (fs : node)
    (patterns : list string) (p : Path) :
  In p (collect self fs patterns) <->
  exists pattern, In pattern patterns /\
    In p (rglob fs (base_path self) pattern) /\
    is_ignored (default_ignore self) p = false.
Proof.
  unfold collect. rewrite in_flat_map.
  split; intros [pattern [Hp H]]; exists pattern; (split; [done|]).
  - apply filter_In in H as [H1 H2]. by apply negb_true_iff in H2.
  - apply filter_In. destruct H as [H1 H2]. by rewrite H2.
Qed.

(** Where a gathered path comes from. *)
Lemma in_gathered (self : TerraformPacker) (fs : node) (p : Path) :
  In p (gathered self fs) ->
  exists pattern, In p (rglob fs (base_path self) pattern) /\
    (pattern = "*.tf" \/
     include_tfvars self = true /\ In pattern tfvars_patterns \/
     include_readme self = true /\ In pattern readme_patterns).
Proof.
  unfold gathered. rewrite !in_app_iff. intros [H|[H|H]].
  - apply in_collect in H as [pattern [[<-|[]] [H _]]]. eauto.
  - destruct (include_tfvars self); [|done].
    apply in_collect in H as [pattern [Hp [H _]]]. eauto 6.
  - destruct (include_readme self); [|done].
    apply in_collect in H as [pattern [Hp [H _]]]. eauto 6.
Qed.

(** Every gathered path lies below the base path. *)
Lemma gathered_below (self : TerraformPacker) (fs : node) (p : Path) :
  In p (gathered self fs) ->
  exists rel, rel <> [] /\ p = base_path self ++ rel /\
              relative_to p (base_path self) = Ok rel.
Proof.
  intros [pattern [H _]]%in_gathered.
  apply rglob_spec in H as [n [rel [_ [-> [Hu _]]]]].
  exists rel. split; [by eapply entry_under_nonempty|].
  split; [done|]. apply relative_to_app.
Qed.

End Discovery.

(** C6: [find_relevant_files] does not remove duplicates.  With the variable
    files included, the file [f.auto.tfvars] matches both the pattern of all
    variable files and the pattern of the automatic ones, and the result
    lists its path twice. *)
Theorem find_relevant_files_duplicates :
  let self := init [] "terraform_pecked.txt" false true false in
  find_relevant_files self Examples.auto_tfvars
  = Ok ([["f.auto.tfvars"]; ["f.auto.tfvars"]], self)
  /\ ~ NoDup [["f.auto.tfvars"]; ["f.auto.tfvars"]]
  /\ exists self fs files self',
       find_relevant_files self fs = Ok (files, self') /\ ~ NoDup files.
Proof.
  intros self.
  assert (find_relevant_files self Examples.auto_tfvars
          = Ok ([["f.auto.tfvars"]; ["f.auto.tfvars"]], self)) as Hrun.
  { rewrite find_relevant_files_ok by (intros _; apply init_has_md).
    vm_compute. reflexivity. }
  assert (~ NoDup [["f.auto.tfvars"]; ["f.auto.tfvars"]]) as Hdup.
  { intros H. apply NoDup_cons_1_1 in H. apply H. by left. }
  split; [done|]. split; [done|]. eauto 6.
Qed.

Section DiscoveryExample.

Lemma Permutation_filter {A} (f : A -> bool) (l l' : list A) :
  l ≡ₚ l' -> List.filter f l ≡ₚ List.filter f l'.
Proof.
  induction 1 as [|x l l' _ IH|x y l|l l' l'' _ IH1 _ IH2]; simpl.
  - done.
  - destruct (f x); [by constructor|done].
  - destruct (f x), (f y); (done || by constructor).
  - by etransitivity.
Qed.

(** The order in which a directory lists its entries does not change what
    the walk yields, up to order. *)
Lemma walk_dir_perm (pattern : string) (d : Path)
    (entries entries' : list (string * node)) :
  entries ≡ₚ entries' ->
  flat_map (select pattern) (iterate_directories d (Dir entries))
  ≡ₚ flat_map (select pattern) (iterate_directories d (Dir entries')).
Proof.
  intros Hp. cbn [iterate_directories flat_map].
  apply Permutation_app.
  - unfold select. simpl. by apply Permutation_map, Permutation_filter.
  - by apply Permutation_flat_map, Permutation_flat_map.
Qed.

Lemma join_contains (sep x : string) (l : list string) :
  In x l -> exists a b, PyStr.join sep l = a +:+ x +:+ b.
Proof.
  unfold PyStr.join. induction l as [|y l IH]; [done|].
  intros [->|Hin].
  - destruct l as [|z l]; simpl.
    + exists "", "". by rewrite app_nil_r.
    + by exists "", (sep +:+ String.concat sep (z :: l)).
  - destruct (IH Hin) as [a [b Hab]].
    destruct l as [|z l]; [done|].
    exists (y +:+ sep +:+ a), b.
    change (String.concat sep (y :: z :: l))
      with (y +:+ sep +:+ String.concat sep (z :: l)).
    by rewrite Hab, !app_assoc.
Qed.

(** Every part of a path is a substring of its string. *)
Lemma str_contains_part (p : Path) (x : string) :
  In x p -> exists a b, str p = a +:+ x +:+ b.
Proof.
  intros Hin. unfold str. destruct p as [|y p]; [done|].
  destruct (String.eqb_spec y "/") as [->|Hy].
  - destruct Hin as [<-|Hin].
    + by exists "", (PyStr.join "/" p).
    + destruct (join_contains "/" x p Hin) as [a [b ->]].
      by exists ("/" +:+ a), b.
  - assert (match y :: p with
            | "/" :: rest => "/" +:+ PyStr.join "/" rest
            | _ => PyStr.join "/" (y :: p)
            end = PyStr.join "/" (y :: p)) as ->.
    { destruct y as [|c [|c' y']]; try done;
        destruct c as [[] [] [] [] [] [] [] []]; done. }
    by apply join_contains.
Qed.

Lemma compare_app (base p q : Path) :
  PathLib.compare (base ++ p) (base ++ q) = PathLib.compare p q.
Proof.
  induction base as [|b base IH]; [done|].
  simpl. by rewrite string_compare_refl.
Qed.

Lemma default_has_terraform (base : Path) (out : string) (rc : bool) :
  ".terraform" ∈ default_ignore (init base out rc false false).
Proof.
  unfold init. cbn [default_ignore]. apply elem_of_union_l.
  apply elem_of_list_to_set, (bool_decide_unpack _). by vm_compute.
Qed.

End DiscoveryExample.

(** C2, as the code has it: with the default flags [find_relevant_files]
    returns, in sorted order, the paths that [rglob] yields for the pattern
    of Terraform files and that the ignore set lets through.  These are the
    paths of the entries below the base path whose name ends in [.tf] and
    whose path string has no pattern of the ignore set as a substring.  For
    a directory that holds [a.tf], [b.tf] and [.terraform/cache.tf], listed
    in any order, the result is the paths of [a.tf] and [b.tf], provided the
    path strings of these two have no ignore pattern in them, which depends
    on the base path too. *)
Theorem find_relevant_files_default (base : Path) (out : string) (rc : bool)
    (fs : node) :
  let self := init base out rc false false in
  exists files,
    find_relevant_files self fs = Ok (files, self) /\
    Sorted PathLib.le files /\
    files ≡ₚ List.filter (fun p => negb (is_ignored (default_ignore self) p))
                         (rglob fs base "*.tf") /\
    (forall p, In p files <->
       (exists n rel stem,
          lookup_path fs base = Some n /\ p = base ++ rel /\
          entry_under n rel /\ name p = stem +:+ ".tf") /\
       ~ (exists pattern, pattern ∈ default_ignore self /\
            exists a b, str p = a +:+ pattern +:+ b)) /\
    (forall entries ca cb cc,
       lookup_path fs base = Some (Dir entries) ->
       entries ≡ₚ [ ("a.tf", File ca); ("b.tf", File cb);
                    (".terraform", Dir [ ("cache.tf", File cc) ]) ] ->
       is_ignored (default_ignore self) (base ++ ["a.tf"]) = false ->
       is_ignored (default_ignore self) (base ++ ["b.tf"]) = false ->
       files = [base ++ ["a.tf"]; base ++ ["b.tf"]]).
Proof.
  intros self.
  set (keep := fun p => negb (is_ignored (default_ignore self) p)).
  assert (gathered self fs = List.filter keep (rglob fs base "*.tf")) as Hg.
  { unfold gathered, collect. simpl. by rewrite !List.app_nil_r. }
  exists (sorted (gathered self fs)).
  destruct (sorted_spec (gathered self fs)) as [Hs Hp].
  split; [by apply find_relevant_files_ok|].
  split; [done|]. split; [by rewrite Hp, Hg|]. split.
  - intros p. rewrite Hp, Hg, filter_In, rglob_spec. unfold keep.
    rewrite negb_true_iff, <- not_true_iff_false, is_ignored_spec.
    unfold fnmatch.
    split; intros [[n [rel H]] Hi]; (split; [|done]).
    + destruct H as [Hl [-> [Hu Hm]]].
      apply (fnmatch_suffix ".tf") in Hm as [stem Hm];
        [|repeat split; discriminate].
      by exists n, rel, stem.
    + destruct H as [stem [Hl [-> [Hu Hm]]]]. exists n, rel.
      repeat split; try done.
      apply (fnmatch_suffix ".tf"); [repeat split; discriminate|].
      by exists stem.
  - intros entries ca cb cc Hl He Ha Hb. apply sorted_unique.
    + repeat constructor; unfold PathLib.le; rewrite compare_app; done.
    + rewrite Hg. unfold rglob. rewrite Hl.
      rewrite (Permutation_filter keep _ _ (walk_dir_perm "*.tf" base _ _ He)).
      assert (keep (base ++ ["a.tf"]) = true) as Hka
        by (unfold keep; by rewrite Ha).
      assert (keep (base ++ ["b.tf"]) = true) as Hkb
        by (unfold keep; by rewrite Hb).
      assert (keep ((base ++ [".terraform"]) ++ ["cache.tf"]) = false) as Hkc.
      { unfold keep. apply negb_false_iff, is_ignored_spec.
        exists ".terraform". split; [apply default_has_terraform|].
        apply str_contains_part. rewrite !in_app_iff. simpl. tauto. }
      cbn. by rewrite Hka, Hkb, Hkc.
Qed.

Lemma find_relevant_files_default_witness :
  find_relevant_files (init [] "terraform_pecked.txt" false false false)
                      Examples.three_files
  = Ok ([["a.tf"]; ["b.tf"]],
        init [] "terraform_pecked.txt" false false false).
Proof.
  destruct (find_relevant_files_default [] "terraform_pecked.txt" false
              Examples.three_files) as [files [Hrun [_ [_ [_ Hex]]]]].
  rewrite Hrun. f_equal. f_equal.
  eapply (Hex _ (ReadOk "a") (ReadOk "b") (ReadOk "c")).
  - reflexivity.
  - reflexivity.
  - vm_compute. reflexivity.
  - vm_compute. reflexivity.
Defined.

(** C2, as the specification states its example, fails: a directory named
    [docs] that holds [a.tf], [b.tf] and [.terraform/cache.tf] gives the
    empty list, because the path string of each file contains the ignore
    pattern [docs]. *)
Lemma find_relevant_files_docs_directory :
  let self := init ["docs"] "terraform_pecked.txt" false false false in
  lookup_path Examples.in_docs ["docs"] = Some Examples.three_files /\
  rglob Examples.in_docs ["docs"] "*.tf"
  = [ ["docs"; "a.tf"]; ["docs"; "b.tf"]; ["docs"; ".terraform"; "cache.tf"] ] /\
  is_ignored (default_ignore self) ["docs"; "a.tf"] = true /\
  find_relevant_files self Examples.in_docs = Ok ([], self) /\
  find_relevant_files self Examples.in_docs
  <> Ok ([ ["docs"; "a.tf"]; ["docs"; "b.tf"] ], self).
Proof.
  intros self.
  assert (find_relevant_files self Examples.in_docs = Ok ([], self)) as Hrun.
  { rewrite find_relevant_files_ok by (intros _; apply init_has_md).
    vm_compute. reflexivity. }
  split; [vm_compute; reflexivity|]. split; [vm_compute; reflexivity|].
  split; [vm_compute; reflexivity|]. split; [exact Hrun|].
  rewrite Hrun. discriminate.
Qed.

Section Markdown.

(** Two ways of cutting one text: one tail is a tail of the other. *)
Lemma app_eq_cases (a b s t : string) :
  a +:+ s = b +:+ t ->
  (exists u, s = u +:+ t) \/ (exists u, t = u +:+ s).
Proof.
  revert b. induction a as [|x a IH]; intros b Heq.
  - left. exists b. by rewrite app_nil_l in Heq.
  - destruct b as [|y b].
    + right. exists (String x a). by rewrite app_nil_l in Heq.
    + rewrite !app_cons in Heq. injection Heq as _ Heq. eauto.
Qed.

Ltac no_tail H :=
  match type of H with
  | _ = ?u +:+ _ =>
      destruct u;
      [ rewrite app_nil_l in H; discriminate H
      | rewrite app_cons in H;
        first [ discriminate H
              | let H' := fresh in injection H as _ H'; no_tail H' ] ]
  end.

Ltac clash H :=
  apply app_eq_cases in H as [[u H]|[u H]]; no_tail H.

(** A name matched by one of the globbing patterns of the first two
    passes does not end like a Markdown name. *)
Lemma source_name_not_markdown (nm pattern stem : string) :
  pattern = "*.tf" \/ In pattern tfvars_patterns ->
  fnmatch nm pattern = true ->
  nm = stem +:+ ".md" \/ nm = stem +:+ ".markdown" -> False.
Proof.
  intros Hpat Hm Hmd.
  assert (exists stem' suffix,
            nm = stem' +:+ suffix /\
            (suffix = ".tf" \/ suffix = ".tfvars" \/
             suffix = ".tfvars.json" \/ suffix = ".auto.tfvars"))
    as [stem' [suffix [Hnm Hsuffix]]].
  { destruct Hpat as [->|[<-|[<-|[<-|[]]]]];
      apply fnmatch_suffix in Hm as [stem' Hm];
      try (repeat split; discriminate); eauto 8. }
  destruct Hmd as [Hmd|Hmd]; rewrite Hnm in Hmd;
    destruct Hsuffix as [->|[->|[->| ->]]]; clash Hmd.
Qed.

Lemma readme_name (nm pattern : string) :
  In pattern readme_patterns -> fnmatch nm pattern = true ->
  nm = "README.md" \/ nm = "README.markdown" \/ nm = "Readme.md".
Proof.
  intros [<-|[<-|[<-|[]]]] Hm; apply fnmatch_literal in Hm;
    try (repeat split; discriminate); auto.
Qed.

End Markdown.

(** C5: a call of [find_relevant_files] that returns leaves the ignore set
    as it found it.  When README files are included, the Markdown pattern is
    in the set at the call, the passes for Terraform and variable files run
    with the whole set, the README pass runs with the set less the Markdown
    pattern, and the paths it collects are named exactly [README.md],
    [README.markdown] or [Readme.md].  Whatever the flags, a returned path
    whose name ends in [.md] or [.markdown] has one of these three names and
    comes from a run that includes README files. *)
Theorem find_relevant_files_readme (self self' : TerraformPacker) (fs : node)
    (files : list Path) :
  find_relevant_files self fs = Ok (files, self') ->
  default_ignore self' = default_ignore self /\
  (include_readme self = true ->
     let amended := default_ignore self ∖ {[ "*.md" ]} in
     ("*.md" ∈ default_ignore self) /\ ("*.md" ∉ amended) /\
     files ≡ₚ collect self fs ["*.tf"]
              ++ (if include_tfvars self
                  then collect self fs tfvars_patterns else [])
              ++ collect (with_ignore self amended) fs readme_patterns /\
     forall p, In p (collect (with_ignore self amended) fs readme_patterns) ->
       name p = "README.md" \/ name p = "README.markdown" \/
       name p = "Readme.md") /\
  (forall p stem, In p files ->
     name p = stem +:+ ".md" \/ name p = stem +:+ ".markdown" ->
     include_readme self = true /\
     (name p = "README.md" \/ name p = "README.markdown" \/
      name p = "Readme.md")).
Proof.
  intros [Hmd [-> ->]]%find_relevant_files_inv.
  destruct (sorted_spec (gathered self fs)) as [_ Hp].
  split; [done|]. split.
  - intros Hr amended. split; [auto|]. split.
    { apply not_elem_of_difference. right. by apply elem_of_singleton. }
    split.
    + rewrite Hp. unfold gathered. by rewrite Hr.
    + intros p [pattern [Hpat [Hin _]]]%in_collect.
      apply rglob_spec in Hin as [n [rel [_ [_ [_ Hm]]]]].
      by eapply readme_name.
  - intros p stem Hin Hname. rewrite Hp in Hin.
    apply in_gathered in Hin as [pattern [Hin Hpat]].
    apply rglob_spec in Hin as [n [rel [_ [_ [_ Hm]]]]].
    destruct Hpat as [Hpat|[[_ Hpat]|[Hr Hpat]]].
    + exfalso. eapply source_name_not_markdown; eauto.
    + exfalso. eapply source_name_not_markdown; eauto.
    + split; [done|]. by eapply readme_name.
Qed.

Lemma find_relevant_files_readme_witness :
  let self := init [] "terraform_pecked.txt" false false true in
  find_relevant_files self Examples.with_readme
  = Ok ([["README.md"]; ["a.tf"]], self) /\
  default_ignore self = default_ignore self /\
  forall p stem, In p [["README.md"]; ["a.tf"]] ->
    name p = stem +:+ ".md" \/ name p = stem +:+ ".markdown" ->
    include_readme self = true /\
    (name p = "README.md" \/ name p = "README.markdown" \/
     name p = "Readme.md").
Proof.
  intros self.
  assert (find_relevant_files self Examples.with_readme
          = Ok ([["README.md"]; ["a.tf"]], self)) as Hrun.
  { rewrite find_relevant_files_ok by (intros _; apply init_has_md).
    vm_compute. reflexivity. }
  split; [exact Hrun|].
  destruct (find_relevant_files_readme self self Examples.with_readme
              [["README.md"]; ["a.tf"]] Hrun) as [Hsame [_ Hnames]].
  split; [exact Hsame | exact Hnames].
Defined.

(** ** Packing *)

Section Pack.

Lemma bind_ok {A B} (a : A) (f : A -> result B) :
  (x ← Ok a; f x) = f a.
Proof. reflexivity. Qed.

Lemma run_eta (st : run) :
  {| output := output st; all_warnings := all_warnings st;
     console := console st |} = st.
Proof. by destruct st. Qed.

Lemma record_warnings_eq (rel : Path) (ws : list string) (st : run) :
  record_warnings rel ws st = extend_warnings (tagged rel ws) st.
Proof.
  destruct ws; [|done]. unfold extend_warnings, tagged. simpl.
  rewrite List.app_nil_r. by destruct st.
Qed.

Lemma write_warning_list_spec (ws : list string) (st : run) :
  write_warning_list ws st =
  {| output := output st +:+ Layout.bullets ws;
     all_warnings := all_warnings st;
     console := console st |}.
Proof.
  unfold write_warning_list. revert st.
  induction ws as [|w ws IH]; intros st; simpl.
  - rewrite app_nil_r. by destruct st.
  - rewrite IH. unfold write. simpl. by rewrite !app_assoc.
Qed.

Lemma print_warning_list_spec (ws : list string) (st : run) :
  print_warning_list ws st =
  {| output := output st;
     all_warnings := all_warnings st;
     console := console st ++ map (fun w => Text ("- " +:+ w)) ws |}.
Proof.
  unfold print_warning_list. revert st.
  induction ws as [|w ws IH]; intros st; simpl.
  - rewrite List.app_nil_r. by destruct st.
  - rewrite IH. unfold print. simpl. by rewrite <- List.app_assoc.
Qed.

Context (self : TerraformPacker) (fs : node).

Lemma prescan_spec (files : list Path) :
  below self files -> forall st,
  prescan self fs files st =
  Ok {| output := output st;
        all_warnings :=
          all_warnings st ++ flat_map (prescan_warnings self fs) files;
        console := console st ++ flat_map (prescan_errors fs) files |}.
Proof.
  induction 1 as [|file files [rel Hrel] _ IH]; intros st.
  - simpl. rewrite !List.app_nil_r. by destruct st.
  - cbn [prescan flat_map]. rewrite Hrel, bind_ok, IH.
    unfold prescan_warnings at 2, prescan_errors at 2, rel_of.
    rewrite Hrel. destruct (open_read fs file) as [content|e].
    + rewrite record_warnings_eq. simpl.
      by rewrite <- List.app_assoc.
    + simpl. by rewrite <- List.app_assoc.
Qed.

Lemma write_structure_spec (files : list Path) :
  below self files -> forall st,
  write_structure self files st =
  Ok {| output := output st +:+ Layout.listing (map (rel_of self) files);
        all_warnings := all_warnings st;
        console := console st |}.
Proof.
  induction 1 as [|file files [rel Hrel] _ IH]; intros st.
  - simpl. rewrite app_nil_r. by destruct st.
  - cbn [write_structure map Layout.listing]. rewrite Hrel, bind_ok, IH.
    unfold rel_of at 2. rewrite Hrel. simpl. by rewrite !app_assoc.
Qed.

Lemma write_contents_spec (files : list Path) :
  below self files -> forall st,
  write_contents self fs files st =
  Ok {| output :=
          output st +:+
          Layout.blocks
            (map (fun file => (rel_of self file, content_body self fs file))
                 files);
        all_warnings :=
          all_warnings st ++ flat_map (content_warnings self fs) files;
        console := console st |}.
Proof.
  induction 1 as [|file files [rel Hrel] _ IH]; intros st.
  - simpl. rewrite app_nil_r, List.app_nil_r. by destruct st.
  - cbn [write_contents map flat_map Layout.blocks].
    rewrite Hrel, bind_ok, IH.
    unfold write_content, content_warnings at 2, content_body at 2,
      rel_of, shown, Layout.block, Layout.rule.
    rewrite Hrel. destruct (open_read fs file) as [content|e].
    + rewrite record_warnings_eq. simpl.
      by rewrite <- List.app_assoc, !app_assoc.
    + simpl. by rewrite !app_assoc.
Qed.

Lemma report_warnings_spec (st : run) :
  report_warnings st =
  {| output := output st +:+ Layout.warning_list (all_warnings st);
     all_warnings := all_warnings st;
     console := console st ++ Layout.console_block (all_warnings st) |}.
Proof.
  unfold report_warnings, Layout.warning_list, Layout.console_block.
  destruct (all_warnings st) as [|w ws] eqn:E.
  - rewrite app_nil_r, List.app_nil_r, <- E. by destruct st.
  - unfold print. rewrite print_warning_list_spec. unfold print.
    cbn [output all_warnings console].
    rewrite write_warning_list_spec. unfold write.
    cbn [output all_warnings console]. rewrite E.
    f_equal; [by rewrite !app_assoc|].
    by rewrite <- !List.app_assoc.
Qed.

Lemma write_trailer_spec (st : run) :
  write_trailer st =
  {| output := output st +:+ Layout.trailing_banner (all_warnings st);
     all_warnings := all_warnings st;
     console := console st |}.
Proof.
  unfold write_trailer, Layout.trailing_banner, Layout.warning_list,
    Layout.rule.
  cbn [write output all_warnings console].
  destruct (all_warnings st) as [|w ws] eqn:E.
  - unfold write. cbn [output all_warnings console].
    by rewrite E, !app_assoc.
  - rewrite write_warning_list_spec. unfold write.
    cbn [output all_warnings console]. by rewrite E, !app_assoc.
Qed.

End Pack.

Section PackLayout.

Context (self : TerraformPacker) (fs : node).

Lemma found_below (files : list Path) (self' : TerraformPacker) :
  find_relevant_files self fs = Ok (files, self') -> below self files.
Proof.
  intros [_ [_ ->]]%find_relevant_files_inv.
  destruct (sorted_spec (gathered self fs)) as [_ Hp].
  apply Forall_forall. intros p Hin%list_elem_of_In. rewrite Hp in Hin.
  destruct (gathered_below self fs p Hin) as [rel [_ [_ Hrel]]]. eauto.
Qed.

(** What a run writes and prints, section by section. *)
Lemma pack_files_layout (files : list Path) (self' : TerraformPacker) :
  find_relevant_files self fs = Ok (files, self') ->
  let found := flat_map (prescan_warnings self fs) files in
  let again := flat_map (content_warnings self fs) files in
  pack_files self fs =
  Ok ({| output :=
           Layout.title
           +:+ Layout.leading_banner found
           +:+ Layout.structure (map (rel_of self) files)
           +:+ Layout.contents
                 (map (fun file =>
                         (rel_of self file, content_body self fs file))
                      files)
           +:+ Layout.trailing_banner (found ++ again);
         all_warnings := found ++ again;
         console :=
           flat_map (prescan_errors fs) files ++ Layout.console_block found
      |}, self').
Proof.
  intros Hfind found again.
  pose proof (found_below files self' Hfind) as Hbelow.
  apply find_relevant_files_inv in Hfind as Hinv.
  destruct Hinv as [_ [-> _]].
  unfold pack_files. rewrite Hfind, bind_ok.
  rewrite (prescan_spec self fs files Hbelow), bind_ok.
  rewrite report_warnings_spec.
  unfold write at 1 2 3. cbn [output all_warnings console].
  rewrite (write_structure_spec self files Hbelow), bind_ok.
  unfold write at 1 2. cbn [output all_warnings console].
  rewrite (write_contents_spec self fs files Hbelow), bind_ok.
  rewrite write_trailer_spec. cbn [output all_warnings console].
  unfold write, start. cbn [output all_warnings console].
  fold found again.
  unfold Layout.title, Layout.leading_banner, Layout.structure,
    Layout.contents, Layout.rule.
  rewrite !app_assoc, !app_nil_l. reflexivity.
Qed.

End PackLayout.

(** C8: every path that [find_relevant_files] returns is the base path
    followed by at least one more part, so [relative_to] succeeds on it, and
    [pack_files], which computes it for each file in each of its loops,
    returns: no [ValueError] escapes. *)
Theorem found_files_relative_to_base (self self' : TerraformPacker)
    (fs : node) (files : list Path) :
  find_relevant_files self fs = Ok (files, self') ->
  base_path self' = base_path self /\
  (forall file, In file files ->
     exists rel, rel <> [] /\ file = base_path self ++ rel /\
                 relative_to file (base_path self') = Ok rel) /\
  (exists st, pack_files self fs = Ok (st, self')) /\
  (forall msg, pack_files self fs <> Raise (ValueError msg)).
Proof.
  intros Hfind. pose proof (pack_files_layout self fs files self' Hfind) as Hrun.
  cbv zeta in Hrun.
  apply find_relevant_files_inv in Hfind as [_ [-> ->]].
  destruct (sorted_spec (gathered self fs)) as [_ Hp].
  split; [done|]. split.
  - intros file Hin%list_elem_of_In. rewrite Hp in Hin.
    apply list_elem_of_In in Hin. by apply (gathered_below self fs).
  - rewrite Hrun. split; [eauto|]. intros msg. discriminate.
Qed.

Lemma found_files_relative_to_base_witness :
  let self := init [] "terraform_pecked.txt" false false false in
  find_relevant_files self Examples.three_files
  = Ok ([["a.tf"]; ["b.tf"]], self) /\
  (forall file, In file [["a.tf"]; ["b.tf"]] ->
     exists rel, rel <> [] /\ file = base_path self ++ rel /\
                 relative_to file (base_path self) = Ok rel) /\
  (exists st, pack_files self Examples.three_files = Ok (st, self)).
Proof.
  intros self.
  assert (find_relevant_files self Examples.three_files
          = Ok ([["a.tf"]; ["b.tf"]], self)) as Hrun.
  { rewrite find_relevant_files_ok by (intros _; apply init_has_md).
    vm_compute. reflexivity. }
  split; [exact Hrun|].
  destruct (found_files_relative_to_base self self Examples.three_files
              [["a.tf"]; ["b.tf"]] Hrun) as [_ [Hrel [Hpack _]]].
  split; [exact Hrel | exact Hpack].
Defined.

(** C7: for an instance as [__init__] builds it and any directory tree,
    whatever files fail to be read, [pack_files] returns.  A file that
    cannot be read adds one line to the console in the pre-scan and nothing
    to the warnings or to the output there; in the contents section its
    block has the header line, the rule, the text of the error in place of
    the content, and the blank separator, and the blocks of the files after
    it follow. *)
Theorem pack_files_read_errors (base : Path) (out : string)
    (rc tv ir : bool) (fs : node) :
  let self := init base out rc tv ir in
  exists files st,
    find_relevant_files self fs = Ok (files, self) /\
    pack_files self fs = Ok (st, self) /\
    let found := flat_map (prescan_warnings self fs) files in
    let again := flat_map (content_warnings self fs) files in
    output st =
      Layout.title
      +:+ Layout.leading_banner found
      +:+ Layout.structure (map (rel_of self) files)
      +:+ Layout.contents
            (map (fun file => (rel_of self file, content_body self fs file))
                 files)
      +:+ Layout.trailing_banner (found ++ again) /\
    console st =
      flat_map (prescan_errors fs) files ++ Layout.console_block found /\
    forall file e, open_read fs file = ReadError e ->
      prescan_warnings self fs file = [] /\
      prescan_errors fs file
      = [Text ("Error reading file for security check: " +:+ e)] /\
      content_warnings self fs file = [] /\
      Layout.block (rel_of self file) (content_body self fs file)
      = "File: " +:+ str (rel_of self file) +:+ PyStr.nl
        +:+ PyStr.mul "-" (PyStr.len (str (rel_of self file)) + 6)
        +:+ PyStr.nl +:+ PyStr.nl
        +:+ ("Error reading file: " +:+ e) +:+ PyStr.nl +:+ PyStr.nl.
Proof.
  intros self.
  assert (find_relevant_files self fs
          = Ok (sorted (gathered self fs), self)) as Hfind
    by (apply find_relevant_files_ok; intros _; apply init_has_md).
  pose proof (pack_files_layout self fs _ self Hfind) as Hrun.
  cbv zeta in Hrun.
  eexists _, _. split; [exact Hfind|]. split; [exact Hrun|].
  cbn [output console]. split; [done|]. split; [done|].
  intros file e He.
  unfold prescan_warnings, prescan_errors, content_warnings, content_body,
    Layout.block, Layout.rule.
  rewrite He. repeat split. by rewrite !app_assoc.
Qed.

(** C4, as the code has it: when the run discovers one file, the file is
    read and its raw content triggers at least one warning, the output has
    the warnings of the raw content in the leading banner, the shown content
    (the raw content, or the content without its comments when comment
    stripping is on) in the block of the file, and in the trailing banner
    the warnings of the raw content followed by those of the shown content.
    With comment stripping off the shown content is the raw content, flagged
    lines included, and the trailing banner lists every warning twice. *)
Theorem pack_files_single_file (self self' : TerraformPacker) (fs : node)
    (file : Path) (content : string) :
  find_relevant_files self fs = Ok ([file], self') ->
  open_read fs file = ReadOk content ->
  warn_about_potential_secrets content <> [] ->
  exists rel st,
    relative_to file (base_path self) = Ok rel /\
    pack_files self fs = Ok (st, self') /\
    let found := tagged rel (warn_about_potential_secrets content) in
    let again :=
      tagged rel (warn_about_potential_secrets (shown self content)) in
    found <> [] /\
    output st =
      Layout.title
      +:+ Layout.leading_banner found
      +:+ Layout.structure [rel]
      +:+ Layout.contents [(rel, shown self content)]
      +:+ Layout.trailing_banner (found ++ again) /\
    Layout.leading_banner found =
      Layout.rule "!" 50 +:+ reminder +:+ PyStr.nl
      +:+ "Potential sensitive information detected:" +:+ PyStr.nl
      +:+ Layout.bullets found +:+ Layout.rule "!" 50 +:+ PyStr.nl /\
    Layout.trailing_banner (found ++ again) =
      PyStr.nl +:+ Layout.rule "!" 50 +:+ reminder +:+ PyStr.nl
      +:+ "Potential sensitive information detected:" +:+ PyStr.nl
      +:+ Layout.bullets (found ++ again) +:+ Layout.rule "!" 50 /\
    all_warnings st = found ++ again /\
    (remove_comments self = false ->
       shown self content = content /\ again = found).
Proof.
  intros Hfind Hread Hwarn.
  pose proof (found_below self fs _ _ Hfind) as Hbelow.
  apply Forall_cons_1 in Hbelow as [[rel Hrel] _].
  pose proof (pack_files_layout self fs _ self' Hfind) as Hrun.
  cbv zeta in Hrun. cbn [flat_map map] in Hrun.
  unfold prescan_warnings, content_warnings, content_body, rel_of in Hrun.
  rewrite Hread, Hrel, !List.app_nil_r in Hrun.
  exists rel. eexists. split; [done|]. split; [exact Hrun|].
  cbn [output all_warnings].
  assert (tagged rel (warn_about_potential_secrets content) <> []) as Hne.
  { unfold tagged. by destruct (warn_about_potential_secrets content). }
  split; [done|]. split; [done|]. split.
  { unfold Layout.leading_banner, Layout.warning_list.
    destruct (tagged rel (warn_about_potential_secrets content)); [done|].
    by rewrite !app_assoc. }
  split.
  { unfold Layout.trailing_banner, Layout.warning_list.
    destruct (tagged rel (warn_about_potential_secrets content)); [done|].
    cbn [List.app]. by rewrite ?app_assoc. }
  split; [done|]. intros Hrc. unfold shown. by rewrite Hrc.
Qed.

Lemma pack_files_single_file_witness :
  let self := init [] "terraform_pecked.txt" false false false in
  let warning :=
    "f.tf: Line 1 might contain sensitive information: password = 1" in
  find_relevant_files self Examples.secret_line = Ok ([["f.tf"]], self) /\
  open_read Examples.secret_line ["f.tf"] = ReadOk "password = 1" /\
  warn_about_potential_secrets "password = 1" <> [] /\
  exists st,
    pack_files self Examples.secret_line = Ok (st, self) /\
    output st =
      Layout.title
      +:+ Layout.leading_banner [warning]
      +:+ Layout.structure [["f.tf"]]
      +:+ Layout.contents [(["f.tf"], "password = 1")]
      +:+ Layout.trailing_banner [warning; warning].
Proof.
  intros self warning.
  assert (find_relevant_files self Examples.secret_line
          = Ok ([["f.tf"]], self)) as Hfind.
  { rewrite find_relevant_files_ok by (intros _; apply init_has_md).
    vm_compute. reflexivity. }
  assert (open_read Examples.secret_line ["f.tf"] = ReadOk "password = 1")
    as Hread by reflexivity.
  assert (warn_about_potential_secrets "password = 1" <> []) as Hwarn
    by (vm_compute; discriminate).
  split; [exact Hfind|]. split; [exact Hread|]. split; [exact Hwarn|].
  destruct (pack_files_single_file self self Examples.secret_line ["f.tf"]
              "password = 1" Hfind Hread Hwarn)
    as [rel [st [Hrel [Hrun [_ [Hout _]]]]]].
  exists st. split; [exact Hrun|].
  assert (rel = ["f.tf"]) as -> by (vm_compute in Hrel; congruence).
  exact Hout.
Defined.

(** C4, as the specification states it, fails when comment stripping is
    on and the flagged line is a comment: the file [f.tf] with the single
    line [# password] gives a warning in both banners, once in each, and a
    block with an empty content, in which the keyword does not occur. *)
Lemma pack_files_stripped_comment :
  let self := init [] "terraform_pecked.txt" true false false in
  let warning :=
    "f.tf: Line 1 might contain sensitive information: # password" in
  find_relevant_files self Examples.secret_comment = Ok ([["f.tf"]], self) /\
  open_read Examples.secret_comment ["f.tf"] = ReadOk "# password" /\
  warn_about_potential_secrets "# password"
  = ["Line 1 might contain sensitive information: # password"] /\
  exists st,
    pack_files self Examples.secret_comment = Ok (st, self) /\
    output st =
      Layout.title
      +:+ Layout.leading_banner [warning]
      +:+ Layout.structure [["f.tf"]]
      +:+ Layout.contents [(["f.tf"], "")]
      +:+ Layout.trailing_banner [warning] /\
    PyStr.contains "password" (Layout.contents [(["f.tf"], "")]) = false /\
    PyStr.contains "password" (Layout.contents [(["f.tf"], "# password")])
    = true.
Proof.
  intros self warning.
  assert (find_relevant_files self Examples.secret_comment
          = Ok ([["f.tf"]], self)) as Hfind.
  { rewrite find_relevant_files_ok by (intros _; apply init_has_md).
    vm_compute. reflexivity. }
  split; [exact Hfind|]. split; [reflexivity|].
  split; [vm_compute; reflexivity|].
  eexists. split; [apply (pack_files_layout self _ _ self Hfind)|].
  cbn [output]. split; [vm_compute; reflexivity|].
  split; vm_compute; reflexivity.
Qed.


(** ** Worked runs *)

(** The scan of three lines of which the first and the third name a keyword
    in upper or mixed case. *)
Example warn_about_potential_secrets_example :
  warn_about_potential_secrets
    ("API_KEY = " +:+ PyStr.dq +:+ "abc" +:+ PyStr.dq +:+ PyStr.nl
     +:+ "fine line" +:+ PyStr.nl +:+ "Password: xyz")
  = [ "Line 1 might contain sensitive information: API_KEY = "
        +:+ PyStr.dq +:+ "abc" +:+ PyStr.dq;
      "Line 3 might contain sensitive information: Password: xyz" ].
Proof. vm_compute. reflexivity. Qed.

(** A run over a directory whose first file cannot be read: one console
    line from the pre-scan, the error text in the block of the file, and
    the block of the second file after it. *)
Example pack_files_unreadable_example :
  let self := init [] "terraform_pecked.txt" false false false in
  exists st,
    pack_files self Examples.unreadable = Ok (st, self) /\
    output st =
      Layout.title
      +:+ Layout.leading_banner []
      +:+ Layout.structure [["a.tf"]; ["b.tf"]]
      +:+ Layout.contents
            [ (["a.tf"], "Error reading file: permission denied");
              (["b.tf"], "x = 1") ]
      +:+ Layout.trailing_banner [] /\
    all_warnings st = [] /\
    console st
    = [Text "Error reading file for security check: permission denied"].
Proof.
  intros self.
  assert (find_relevant_files self Examples.unreadable
          = Ok ([["a.tf"]; ["b.tf"]], self)) as Hfind.
  { rewrite find_relevant_files_ok by (intros _; apply init_has_md).
    vm_compute. reflexivity. }
  eexists. split; [apply (pack_files_layout self _ _ self Hfind)|].
  cbn [output all_warnings console].
  repeat split; vm_compute; reflexivity.
Qed.


(** * Further properties of the code *)

(** ** Substrings *)

Section Substrings.

Lemma substring_refl (s : string) : substring s s.
Proof. exists "", "". by rewrite app_nil_r. Qed.

Lemma substring_trans (x y z : string) :
  substring x y -> substring y z -> substring x z.
Proof.
  intros [a [b ->]] [c [d ->]]. exists (c +:+ a), (b +:+ d).
  by rewrite !app_assoc.
Qed.

Lemma substring_contains (x s : string) :
  PyStr.contains x s = true <-> substring x s.
Proof. apply contains_spec. Qed.

Lemma part_substring (p : Path) (part : string) :
  In part p -> substring part (str p).
Proof. apply str_contains_part. Qed.

(** A larger ignore set ignores more. *)
Lemma is_ignored_mono (ign ign' : gset string) (p : Path) :
  ign ⊆ ign' -> is_ignored ign p = true -> is_ignored ign' p = true.
Proof.
  intros Hsub [pattern [Hin H]]%is_ignored_spec. apply is_ignored_spec.
  exists pattern. split; [by apply Hsub|done].
Qed.

(** Every gathered path passed the ignore test of the set less the
    Markdown pattern. *)
Lemma gathered_not_ignored (self : TerraformPacker) (fs : node) (p : Path) :
  In p (gathered self fs) ->
  is_ignored (default_ignore self ∖ {[ "*.md" ]}) p = false.
Proof.
  assert (forall q, is_ignored (default_ignore self) q = false ->
            is_ignored (default_ignore self ∖ {[ "*.md" ]}) q = false)
    as Hweak.
  { intros q Hq. apply not_true_is_false. intros Hi.
    apply (is_ignored_mono _ (default_ignore self)) in Hi; [congruence|].
    apply subseteq_difference_l. done. }
  unfold gathered. rewrite !in_app_iff. intros [H|[H|H]].
  - apply in_collect in H as [_ [_ [_ H]]]. auto.
  - destruct (include_tfvars self); [|done].
    apply in_collect in H as [_ [_ [_ H]]]. auto.
  - destruct (include_readme self); [|done].
    by apply in_collect in H as [_ [_ [_ H]]].
Qed.

Lemma sorted_nil_inv (l : list Path) : sorted l = [] -> l = [].
Proof.
  intros H. destruct (sorted_spec l) as [_ Hp]. rewrite H in Hp.
  by apply Permutation_nil.
Qed.

End Substrings.

(** ** More on discovery *)

(** X1: for an instance as [__init__] builds it, whatever the flags and the
    directory tree, [find_relevant_files] returns: the list is sorted, it
    has the paths of the enabled passes with their multiplicity, and the
    instance it leaves is the instance it found, so that a second call gives
    the same list. *)
Theorem find_relevant_files_after_init (base : Path) (out : string)
    (rc tv ir : bool) (fs : node) :
  let self := init base out rc tv ir in
  exists files,
    find_relevant_files self fs = Ok (files, self) /\
    Sorted PathLib.le files /\
    files ≡ₚ
      collect self fs ["*.tf"]
      ++ (if tv then collect self fs tfvars_patterns else [])
      ++ (if ir
          then collect (with_ignore self (default_ignore self ∖ {[ "*.md" ]}))
                       fs readme_patterns
          else []).
Proof.
  intros self. exists (sorted (gathered self fs)).
  destruct (sorted_spec (gathered self fs)) as [Hs Hp].
  split; [apply find_relevant_files_ok; intros _; apply init_has_md|].
  split; [done|]. exact Hp.
Qed.

(** X2: when README files are to be included and the ignore set has lost
    its Markdown pattern, [find_relevant_files] raises the [KeyError] of
    [set.remove], and [pack_files] lets it escape. *)
Theorem find_relevant_files_key_error (self : TerraformPacker) (fs : node) :
  include_readme self = true -> "*.md" ∉ default_ignore self ->
  find_relevant_files self fs = Raise (KeyError "*.md") /\
  pack_files self fs = Raise (KeyError "*.md").
Proof.
  intros Hr Hmd.
  pose proof (find_relevant_files_raise self fs Hr Hmd) as Hfind.
  split; [done|]. unfold pack_files. by rewrite Hfind.
Qed.

Lemma find_relevant_files_key_error_witness :
  let self := with_ignore (init [] "terraform_pecked.txt" false false true) ∅ in
  include_readme self = true /\ ("*.md" ∉ default_ignore self) /\
  find_relevant_files self Examples.with_readme = Raise (KeyError "*.md") /\
  pack_files self Examples.with_readme = Raise (KeyError "*.md").
Proof.
  intros self.
  assert (include_readme self = true) as Hr by reflexivity.
  assert ("*.md" ∉ default_ignore self) as Hmd by apply not_elem_of_empty.
  split; [exact Hr|]. split; [exact Hmd|].
  exact (find_relevant_files_key_error self Examples.with_readme Hr Hmd).
Defined.

(** X3: no part of a returned path contains a pattern of the ignore set,
    the Markdown pattern apart: nothing is returned from inside a directory
    such as [.git], [.terraform], [node_modules] or [mydocs], and no file
    such as [override.tf]. *)
Theorem found_paths_avoid_ignored (self self' : TerraformPacker) (fs : node)
    (files : list Path) :
  find_relevant_files self fs = Ok (files, self') ->
  forall p pattern part,
    In p files -> pattern ∈ default_ignore self -> pattern <> "*.md" ->
    In part p -> ~ substring pattern part.
Proof.
  intros [_ [_ ->]]%find_relevant_files_inv p pattern part Hp Hpat Hne Hpart
    Hsub.
  destruct (sorted_spec (gathered self fs)) as [_ Hperm].
  apply list_elem_of_In in Hp. rewrite Hperm in Hp.
  apply list_elem_of_In, gathered_not_ignored in Hp.
  apply not_true_iff_false in Hp. apply Hp, is_ignored_spec.
  exists pattern. split.
  - apply elem_of_difference. split; [done|]. by rewrite elem_of_singleton.
  - eapply substring_trans; [exact Hsub|]. by apply part_substring.
Qed.

Lemma found_paths_avoid_ignored_witness :
  let self := init [] "terraform_pecked.txt" false false false in
  find_relevant_files self Examples.three_files
  = Ok ([["a.tf"]; ["b.tf"]], self) /\
  forall p pattern part,
    In p [["a.tf"]; ["b.tf"]] -> pattern ∈ default_ignore self ->
    pattern <> "*.md" -> In part p -> ~ substring pattern part.
Proof.
  intros self.
  assert (find_relevant_files self Examples.three_files
          = Ok ([["a.tf"]; ["b.tf"]], self)) as Hrun.
  { rewrite find_relevant_files_ok by (intros _; apply init_has_md).
    vm_compute. reflexivity. }
  split; [exact Hrun|].
  exact (found_paths_avoid_ignored self self Examples.three_files _ Hrun).
Defined.

(** X4: the name of a returned path ends in [.tf]; or variable files are
    included and it ends in [.tfvars] or [.tfvars.json]; or README files are
    included and it is one of the three README names.  With both flags off
    only names ending in [.tf] are returned. *)
Theorem found_names (self self' : TerraformPacker) (fs : node)
    (files : list Path) :
  find_relevant_files self fs = Ok (files, self') ->
  forall p, In p files ->
    (exists stem, name p = stem +:+ ".tf") \/
    (include_tfvars self = true /\
     exists stem suffix,
       In suffix tfvars_suffixes /\ name p = stem +:+ suffix) \/
    (include_readme self = true /\ In (name p) readme_patterns).
Proof.
  intros [_ [_ ->]]%find_relevant_files_inv p Hp.
  destruct (sorted_spec (gathered self fs)) as [_ Hperm].
  apply list_elem_of_In in Hp. rewrite Hperm in Hp.
  apply list_elem_of_In, in_gathered in Hp as [pattern [Hin Hpat]].
  apply rglob_spec in Hin as [n [rel [_ [_ [_ Hm]]]]].
  destruct Hpat as [->|[[Htv Hpat]|[Hr Hpat]]].
  - left. apply fnmatch_suffix in Hm; [done|repeat split; discriminate].
  - right. left. split; [done|].
    destruct Hpat as [<-|[<-|[<-|[]]]];
      apply fnmatch_suffix in Hm as [stem Hm];
      try (repeat split; discriminate).
    + exists stem, ".tfvars". split; [by left|done].
    + exists stem, ".tfvars.json". split; [right; by left|done].
    + exists (stem +:+ ".auto"), ".tfvars". split; [by left|].
      by rewrite app_assoc.
  - right. right. split; [done|].
    destruct (readme_name _ _ Hpat Hm) as [->|[->| ->]]; simpl; tauto.
Qed.

Lemma found_names_witness :
  let self := init [] "terraform_pecked.txt" false false true in
  find_relevant_files self Examples.with_readme
  = Ok ([["README.md"]; ["a.tf"]], self) /\
  forall p, In p [["README.md"]; ["a.tf"]] ->
    (exists stem, name p = stem +:+ ".tf") \/
    (include_tfvars self = true /\
     exists stem suffix,
       In suffix tfvars_suffixes /\ name p = stem +:+ suffix) \/
    (include_readme self = true /\ In (name p) readme_patterns).
Proof.
  intros self.
  assert (find_relevant_files self Examples.with_readme
          = Ok ([["README.md"]; ["a.tf"]], self)) as Hrun.
  { rewrite find_relevant_files_ok by (intros _; apply init_has_md).
    vm_compute. reflexivity. }
  split; [exact Hrun|].
  exact (found_names self self Examples.with_readme _ Hrun).
Defined.

(** X5: when a part of the base path itself contains a pattern of the
    ignore set, the Markdown pattern apart, nothing is found, whatever the
    directory holds: a project kept under a directory named [vendor] or
    [docs] packs to an empty list. *)
Theorem ignored_base_path_finds_nothing (self self' : TerraformPacker)
    (fs : node) (files : list Path) (part pattern : string) :
  find_relevant_files self fs = Ok (files, self') ->
  In part (base_path self) -> pattern ∈ default_ignore self ->
  pattern <> "*.md" -> substring pattern part ->
  files = [].
Proof.
  intros [_ [_ ->]]%find_relevant_files_inv Hpart Hpat Hne Hsub.
  destruct (sorted (gathered self fs)) as [|p files] eqn:E; [done|].
  exfalso.
  destruct (sorted_spec (gathered self fs)) as [_ Hperm].
  assert (p ∈ gathered self fs) as Hp by (rewrite <- Hperm, E; by left).
  apply list_elem_of_In in Hp.
  pose proof (gathered_not_ignored self fs p Hp) as Hkeep.
  destruct (gathered_below self fs p Hp) as [rel [_ [-> _]]].
  apply not_true_iff_false in Hkeep. apply Hkeep, is_ignored_spec.
  exists pattern. split.
  - apply elem_of_difference. split; [done|]. by rewrite elem_of_singleton.
  - eapply substring_trans; [exact Hsub|]. apply part_substring.
    apply in_app_iff. by left.
Qed.

Lemma ignored_base_path_finds_nothing_witness :
  let self := init ["my-vendors"] "terraform_pecked.txt" false true true in
  let fs := Dir [ ("my-vendors", Examples.with_readme) ] in
  find_relevant_files self fs = Ok ([], self) /\
  In "my-vendors" (base_path self) /\ "vendor" ∈ default_ignore self /\
  "vendor" <> "*.md" /\ substring "vendor" "my-vendors".
Proof.
  intros self fs.
  assert (In "my-vendors" (base_path self)) as Hpart by (by left).
  assert ("vendor" ∈ default_ignore self) as Hpat.
  { apply elem_of_list_to_set, (bool_decide_unpack _). by vm_compute. }
  assert ("vendor" <> "*.md") as Hne by discriminate.
  assert (substring "vendor" "my-vendors") as Hsub by (by exists "my-", "s").
  assert (exists files, find_relevant_files self fs = Ok (files, self))
    as [files Hrun].
  { eexists. apply find_relevant_files_ok. intros _. apply init_has_md. }
  rewrite Hrun.
  rewrite (ignored_base_path_finds_nothing self self fs files
             "my-vendors" "vendor" Hrun Hpart Hpat Hne Hsub).
  repeat split; assumption.
Defined.

(** X6: whatever the flags, every entry below the base path whose name
    ends in [.tf] and whose path string passes the ignore test is returned,
    be it a file or a directory. *)
Theorem every_terraform_entry_is_found (self self' : TerraformPacker)
    (fs : node) (files : list Path) (n : node) (rel : Path) (stem : string) :
  find_relevant_files self fs = Ok (files, self') ->
  lookup_path fs (base_path self) = Some n ->
  entry_under n rel ->
  name (base_path self ++ rel) = stem +:+ ".tf" ->
  is_ignored (default_ignore self) (base_path self ++ rel) = false ->
  In (base_path self ++ rel) files.
Proof.
  intros [_ [_ ->]]%find_relevant_files_inv Hl Hu Hname Hkeep.
  destruct (sorted_spec (gathered self fs)) as [_ Hperm].
  apply list_elem_of_In. rewrite Hperm. apply list_elem_of_In.
  unfold gathered. apply in_app_iff. left. apply in_collect.
  exists "*.tf". split; [by left|]. split; [|done].
  apply rglob_spec. exists n, rel. repeat split; try done.
  apply (fnmatch_suffix ".tf"); [repeat split; discriminate|]. eauto.
Qed.

Lemma every_terraform_entry_is_found_witness :
  let self := init [] "terraform_pecked.txt" false false false in
  let fs := Dir [ ("modules.tf", Dir [ ("main.tf", File (ReadOk "")) ]) ] in
  find_relevant_files self fs
  = Ok ([["modules.tf"]; ["modules.tf"; "main.tf"]], self) /\
  In ["modules.tf"] [["modules.tf"]; ["modules.tf"; "main.tf"]].
Proof.
  intros self fs.
  assert (find_relevant_files self fs
          = Ok ([["modules.tf"]; ["modules.tf"; "main.tf"]], self)) as Hrun.
  { rewrite find_relevant_files_ok by (intros _; apply init_has_md).
    vm_compute. reflexivity. }
  split; [exact Hrun|].
  apply (every_terraform_entry_is_found self self fs _
           fs ["modules.tf"] "modules" Hrun).
  - reflexivity.
  - simpl. eexists. split; [by left|done].
  - reflexivity.
  - vm_compute. reflexivity.
Defined.

Section IgnoreSet.

(** The ignore set that [__init__] builds. *)
Lemma init_ignore_elem (base : Path) (out : string) (rc tv ir : bool)
    (pattern : string) :
  pattern ∈ default_ignore (init base out rc tv ir) <->
  In pattern base_ignore \/ (tv = false /\ In pattern tfvars_patterns).
Proof.
  unfold init. cbn [default_ignore]. destruct tv.
  - rewrite elem_of_list_to_set, list_elem_of_In. intuition congruence.
  - rewrite elem_of_union, !elem_of_list_to_set, !list_elem_of_In. tauto.
Qed.

Lemma tfvars_pattern_starred (pattern : string) :
  In pattern tfvars_patterns -> PyStr.contains "*" pattern = true.
Proof. intros [<-|[<-|[<-|[]]]]; reflexivity. Qed.

End IgnoreSet.

(** X7: the patterns of the ignore set are matched as plain text, a star
    included.  For an instance as [__init__] builds it and a path whose
    string has no star, the patterns written with a star (the state, swap,
    backup, byte-code, log, Markdown and variable-file patterns) never
    apply: the path is ignored exactly when one of the star-free patterns of
    the base list occurs in its string. *)
Theorem starred_patterns_need_a_star (base : Path) (out : string)
    (rc tv ir : bool) (p : Path) :
  ~ substring "*" (str p) ->
  (is_ignored (default_ignore (init base out rc tv ir)) p = true <->
   exists pattern,
     In pattern base_ignore /\ PyStr.contains "*" pattern = false /\
     substring pattern (str p)).
Proof.
  intros Hstar. rewrite is_ignored_spec. split.
  - intros [pattern [Hin Hsub]].
    assert (PyStr.contains "*" pattern = false) as Hplain.
    { apply not_true_is_false. intros Hc%substring_contains.
      apply Hstar. by eapply substring_trans. }
    apply init_ignore_elem in Hin as [Hin|[_ Hin]].
    + by exists pattern.
    + apply tfvars_pattern_starred in Hin. congruence.
  - intros [pattern [Hin [_ Hsub]]]. exists pattern. split; [|done].
    apply init_ignore_elem. by left.
Qed.

Lemma starred_patterns_need_a_star_witness :
  let self := init [] "terraform_pecked.txt" false false false in
  ~ substring "*" (str ["prod.tfvars.tf"]) /\
  is_ignored (default_ignore self) ["prod.tfvars.tf"] = false.
Proof.
  intros self.
  assert (~ substring "*" (str ["prod.tfvars.tf"])) as Hstar.
  { intros H%substring_contains. vm_compute in H. discriminate. }
  split; [exact Hstar|].
  apply not_true_is_false. intros Hi.
  apply (starred_patterns_need_a_star [] "terraform_pecked.txt" false false
           false ["prod.tfvars.tf"] Hstar) in Hi
    as [pattern [Hin [_ Hsub%substring_contains]]].
  unfold base_ignore in Hin. simpl in Hin.
  repeat (destruct Hin as [<-|Hin]; [vm_compute in Hsub; discriminate|]).
  destruct Hin.
Defined.

(** ** More on comment stripping *)

Section Lines.

Lemma split_lines_prefix (x s : string) :
  no_lf x ->
  PyStr.split_lines (x +:+ s) =
  match PyStr.split_lines s with
  | [] => [x]
  | l :: ls => (x +:+ l) :: ls
  end.
Proof.
  induction x as [|c x IH]; intros Hx.
  - rewrite app_nil_l. pose proof (split_lines_nonempty s).
    by destruct (PyStr.split_lines s).
  - destruct Hx as [Hc Hx]. rewrite app_cons. cbn [PyStr.split_lines].
    destruct (Ascii.eqb_spec c PyStr.LF) as [->|_]; [done|].
    rewrite (IH Hx). by destruct (PyStr.split_lines s).
Qed.

Lemma split_lines_no_lf (s line : string) :
  In line (PyStr.split_lines s) -> no_lf line.
Proof.
  revert line. induction s as [|c s IH]; intros line; cbn [PyStr.split_lines].
  - by intros [<-|[]].
  - destruct (Ascii.eqb_spec c PyStr.LF) as [->|Hc].
    + intros [<-|Hin]; [done|auto].
    + pose proof (split_lines_nonempty s).
      destruct (PyStr.split_lines s) as [|l ls]; [done|].
      intros [<-|Hin].
      * split; [done|]. apply IH. by left.
      * apply IH. by right.
Qed.

(** Splitting what [join] made of line-feed-free lines gives the lines. *)
Lemma split_lines_join (ls : list string) :
  ls <> [] -> Forall no_lf ls ->
  PyStr.split_lines (PyStr.join PyStr.nl ls) = ls.
Proof.
  unfold PyStr.join. intros Hne Hall.
  induction Hall as [|x ls Hx Hall IH]; [done|].
  destruct ls as [|y ls].
  - simpl. rewrite <- (app_nil_r x) at 1.
    rewrite split_lines_prefix by done. simpl. by rewrite app_nil_r.
  - change (String.concat PyStr.nl (x :: y :: ls))
      with (x +:+ PyStr.nl +:+ String.concat PyStr.nl (y :: ls)).
    rewrite split_lines_prefix by done.
    change (PyStr.nl +:+ String.concat PyStr.nl (y :: ls))
      with (String PyStr.LF (String.concat PyStr.nl (y :: ls))).
    cbn [PyStr.split_lines]. rewrite Ascii.eqb_refl, IH by done.
    by rewrite app_nil_r.
Qed.

Lemma join_length (ls : list string) :
  String.length (PyStr.join PyStr.nl ls) + 1 <=
  list_sum (map (fun l => String.length l + 1) ls) + 1 /\
  (ls <> [] ->
   String.length (PyStr.join PyStr.nl ls) + 1 =
   list_sum (map (fun l => String.length l + 1) ls)).
Proof.
  unfold PyStr.join. induction ls as [|x ls [_ IH]]; [simpl; split; [lia|done]|].
  assert (String.length (String.concat PyStr.nl (x :: ls)) + 1 =
          list_sum (map (fun l => String.length l + 1) (x :: ls))) as H.
  { destruct ls as [|y ls]; [simpl; lia|].
    change (String.concat PyStr.nl (x :: y :: ls))
      with (x +:+ PyStr.nl +:+ String.concat PyStr.nl (y :: ls)).
    rewrite !app_length. cbn [map list_sum fold_right] in *.
    specialize (IH ltac:(done)). simpl String.length. simpl in IH. lia. }
  split; [lia|done].
Qed.

Lemma filter_sum_le {A} (f : A -> bool) (g : A -> nat) (l : list A) :
  list_sum (map g (List.filter f l)) <= list_sum (map g l).
Proof.
  induction l as [|x l IH]; [done|]. simpl.
  destruct (f x); simpl; lia.
Qed.

Lemma join_filter_length (f : string -> bool) (ls : list string) :
  String.length (PyStr.join PyStr.nl (List.filter f ls))
  <= String.length (PyStr.join PyStr.nl ls).
Proof.
  destruct (List.filter f ls) as [|k ks] eqn:E; [simpl; lia|].
  assert (ls <> []) as Hne by (intros ->; discriminate).
  destruct (join_length (k :: ks)) as [_ H1].
  destruct (join_length ls) as [_ H2].
  specialize (H1 ltac:(done)). specialize (H2 Hne).
  pose proof (filter_sum_le f (fun l => String.length l + 1) ls) as H3.
  rewrite E in H3. lia.
Qed.

End Lines.

Section Blocks.

Lemma two_chars (c d x y : ascii) (s : string) :
  Ascii.eqb c x && Ascii.eqb d y = true ->
  String c (String d s) = String x (String y "") +:+ s.
Proof. by intros [->%Ascii.eqb_eq ->%Ascii.eqb_eq]%andb_true_iff. Qed.

Lemma has_close_step (c : ascii) (s : string) :
  Re.has_close (String c s) =
  match s with
  | String d _ => Ascii.eqb c "*" && Ascii.eqb d "/" || Re.has_close s
  | "" => false
  end.
Proof.
  destruct s as [|d s]; destruct c as [[] [] [] [] [] [] [] []];
    try reflexivity;
    destruct d as [[] [] [] [] [] [] [] []]; reflexivity.
Qed.

Lemma substring_tail (p s : string) (c : ascii) :
  substring p s -> substring p (String c s).
Proof. intros [a [b ->]]. by exists (String c a), b. Qed.

Lemma has_close_spec (s : string) :
  Re.has_close s = true <-> substring "*/" s.
Proof.
  induction s as [|c s IH].
  - split; [done|]. intros [a [b H]]. by destruct a.
  - rewrite has_close_step. destruct s as [|d s].
    + split; [done|]. intros [[|x [|y a]] [b H]]; discriminate.
    + rewrite orb_true_iff, IH. split.
      * intros [H|H]; [|by apply substring_tail].
        exists "", s. by rewrite (two_chars _ _ _ _ _ H).
      * intros [a [b Hab]]. destruct a as [|x a].
        -- left. rewrite app_nil_l, !app_cons in Hab.
           injection Hab as -> -> _. reflexivity.
        -- right. rewrite app_cons in Hab. injection Hab as _ Hab.
           by exists a, b.
Qed.

(** One step of the substitution, outside and inside a match. *)
Lemma sub_block_outside (c : ascii) (s : string) :
  Re.sub_block false (String c s) =
  match s with
  | String d rest =>
      if Ascii.eqb c "/" && Ascii.eqb d "*" && Re.has_close rest
      then Re.sub_block true rest
      else String c (Re.sub_block false s)
  | "" => String c ""
  end.
Proof.
  destruct s as [|d s]; destruct c as [[] [] [] [] [] [] [] []];
    try reflexivity;
    destruct d as [[] [] [] [] [] [] [] []]; reflexivity.
Qed.

Lemma sub_block_inside (c : ascii) (s : string) :
  Re.sub_block true (String c s) =
  match s with
  | String d rest =>
      if Ascii.eqb c "*" && Ascii.eqb d "/"
      then Re.sub_block false rest
      else Re.sub_block true s
  | "" => ""
  end.
Proof.
  destruct s as [|d s]; destruct c as [[] [] [] [] [] [] [] []];
    try reflexivity;
    destruct d as [[] [] [] [] [] [] [] []]; reflexivity.
Qed.

(** Without a closing delimiter the substitution finds no match. *)
Lemma sub_block_no_close (s : string) :
  ~ substring "*/" s -> Re.sub_block false s = s.
Proof.
  induction s as [|c s IH]; intros Hno; [done|].
  assert (Re.sub_block false s = s) as Hs.
  { apply IH. intros H. by apply Hno, substring_tail. }
  rewrite sub_block_outside, Hs. destruct s as [|d rest]; [done|].
  destruct (Re.has_close rest) eqn:E; [|by rewrite andb_false_r].
  exfalso. apply Hno. apply has_close_spec in E.
  by apply substring_tail, substring_tail.
Qed.

(** The substitution never makes the text longer. *)
Lemma sub_block_length (n : nat) :
  forall (s : string) (inside : bool),
    String.length s <= n ->
    String.length (Re.sub_block inside s) <= String.length s.
Proof.
  induction n as [|n IH]; intros [|c s] inside Hn; simpl in Hn;
    try done; try lia.
  assert (forall b, String.length (Re.sub_block b s) <= String.length s)
    as Hs by (intros b; apply IH; lia).
  destruct inside.
  - rewrite sub_block_inside. destruct s as [|d rest]; [simpl; lia|].
    destruct (Ascii.eqb c "*" && Ascii.eqb d "/").
    + pose proof (IH rest false ltac:(simpl in Hn; lia)). simpl. lia.
    + pose proof (Hs true). simpl in *. lia.
  - rewrite sub_block_outside. pose proof (Hs false) as Hf.
    destruct s as [|d rest]; [simpl; lia|].
    destruct (Ascii.eqb c "/" && Ascii.eqb d "*" && Re.has_close rest);
      [|simpl in *; lia].
    pose proof (IH rest true ltac:(simpl in Hn; lia)). simpl. lia.
Qed.

(** Text without an opening delimiter, before text that starts with a
    slash, is copied. *)
Lemma sub_block_copy (a s : string) :
  ~ substring "/*" a ->
  Re.sub_block false (a +:+ String "/" s)
  = a +:+ Re.sub_block false (String "/" s).
Proof.
  intros Ha. induction a as [|c a IH]; [done|].
  rewrite !app_cons, sub_block_outside, IH
    by (intros H; by apply Ha, substring_tail).
  destruct (a +:+ String "/" s) as [|d rest] eqn:E; [by destruct a|].
  destruct (Ascii.eqb c "/" && Ascii.eqb d "*") eqn:E2; [|done].
  exfalso. destruct a as [|x a].
  - rewrite app_nil_l in E. injection E as <- _.
    apply andb_true_iff in E2 as [_ E2]. discriminate.
  - rewrite app_cons in E. injection E as -> _.
    apply Ha. exists "", a. by rewrite (two_chars _ _ _ _ _ E2).
Qed.

(** Inside a match, text without a closing delimiter is dropped up to the
    closing delimiter that follows it. *)
Lemma sub_block_drop (c s : string) :
  ~ substring "*/" c ->
  Re.sub_block true (c +:+ "*/" +:+ s) = Re.sub_block false s.
Proof.
  intros Hc. induction c as [|x c IH].
  - rewrite app_nil_l. reflexivity.
  - rewrite app_cons, sub_block_inside.
    destruct (c +:+ "*/" +:+ s) as [|d rest] eqn:E; [by destruct c|].
    destruct (Ascii.eqb x "*" && Ascii.eqb d "/") eqn:E2.
    + exfalso. destruct c as [|y c].
      * rewrite app_nil_l in E. injection E as <- _.
        apply andb_true_iff in E2 as [_ E2]. discriminate.
      * rewrite app_cons in E. injection E as -> _.
        apply Hc. exists "", c. by rewrite (two_chars _ _ _ _ _ E2).
    + apply IH. intros H. by apply Hc, substring_tail.
Qed.

End Blocks.

(** X8: the result of [remove_terraform_comments] has no hash line left:
    its lines are the lines of the text after the block-comment step that
    do not start with a hash once leading whitespace is stripped, in order
    (one empty line when none is kept). *)
Theorem remove_terraform_comments_lines (content : string) :
  let kept :=
    List.filter kept_line
                (PyStr.split_lines (Re.sub_block_comments content)) in
  PyStr.split_lines (remove_terraform_comments content)
  = match kept with
    | [] => [""]
    | _ :: _ => kept
    end /\
  forall line,
    In line (PyStr.split_lines (remove_terraform_comments content)) ->
    PyStr.startswith (PyStr.lstrip line) "#" = false.
Proof.
  intros kept.
  assert (remove_terraform_comments content = PyStr.join PyStr.nl kept)
    as Hrtc by reflexivity.
  assert (PyStr.split_lines (remove_terraform_comments content)
          = match kept with
            | [] => [""]
            | _ :: _ => kept
            end) as Hlines.
  { rewrite Hrtc. destruct kept as [|k ks] eqn:E; [reflexivity|].
    apply split_lines_join; [done|]. rewrite <- E.
    apply Forall_forall. intros line [Hin _]%list_elem_of_In%filter_In.
    by eapply split_lines_no_lf. }
  split; [exact Hlines|]. intros line. rewrite Hlines.
  destruct kept as [|k ks] eqn:E.
  - by intros [<-|[]].
  - rewrite <- E. intros [_ Hk]%filter_In.
    by apply negb_true_iff in Hk.
Qed.

(** X9: a block comment that is opened and never closed is not removed:
    on a content without a closing delimiter the block-comment step changes
    nothing, and only hash lines are dropped. *)
Theorem remove_terraform_comments_unterminated (content : string) :
  ~ substring "*/" content ->
  Re.sub_block_comments content = content /\
  remove_terraform_comments content
  = PyStr.join PyStr.nl (List.filter kept_line (PyStr.split_lines content)).
Proof.
  intros Hno.
  assert (Re.sub_block_comments content = content) as Hsub
    by (by apply sub_block_no_close).
  split; [done|]. unfold remove_terraform_comments. by rewrite Hsub.
Qed.

Lemma remove_terraform_comments_unterminated_witness :
  let content := "a = 1 /* open" +:+ PyStr.nl +:+ "# note" +:+ PyStr.nl
                 +:+ "b = 2" in
  ~ substring "*/" content /\
  remove_terraform_comments content
  = "a = 1 /* open" +:+ PyStr.nl +:+ "b = 2".
Proof.
  intros content.
  assert (~ substring "*/" content) as Hno.
  { intros H%substring_contains. vm_compute in H. discriminate. }
  split; [exact Hno|].
  destruct (remove_terraform_comments_unterminated content Hno) as [_ ->].
  vm_compute. reflexivity.
Defined.

(** X10: [remove_terraform_comments] never returns a text longer than its
    argument. *)
Theorem remove_terraform_comments_length (content : string) :
  PyStr.len (remove_terraform_comments content) <= PyStr.len content.
Proof.
  unfold PyStr.len, remove_terraform_comments, Re.sub_block_comments.
  etransitivity; [apply join_filter_length|].
  rewrite join_split_lines. by eapply sub_block_length.
Qed.

(** X11: the block-comment step removes the leftmost comment whole and goes
    on after it: when the text before the opening delimiter has no opening
    delimiter and the text of the comment has no closing delimiter, what
    results is the text before, then the result of the step on the text
    after the closing delimiter. *)
Theorem sub_block_comments_first_comment (before comment after : string) :
  ~ substring "/*" before -> ~ substring "*/" comment ->
  Re.sub_block_comments (before +:+ "/*" +:+ comment +:+ "*/" +:+ after)
  = before +:+ Re.sub_block_comments after.
Proof.
  intros Hb Hc. unfold Re.sub_block_comments.
  change ("/*" +:+ comment +:+ "*/" +:+ after)
    with (String "/" (String "*" (comment +:+ "*/" +:+ after))).
  rewrite (sub_block_copy before _ Hb), sub_block_outside.
  assert (Re.has_close (comment +:+ "*/" +:+ after) = true) as ->
    by (apply has_close_spec; by exists comment, after).
  simpl. by rewrite sub_block_drop.
Qed.

Lemma sub_block_comments_first_comment_witness :
  ~ substring "/*" "x = 1 // " /\ ~ substring "*/" " a * b / c " /\
  Re.sub_block_comments
    ("x = 1 // " +:+ "/*" +:+ " a * b / c " +:+ "*/" +:+ " y /* z */")
  = "x = 1 // " +:+ Re.sub_block_comments " y /* z */".
Proof.
  assert (~ substring "/*" "x = 1 // ") as Hb.
  { intros H%substring_contains. vm_compute in H. discriminate. }
  assert (~ substring "*/" " a * b / c ") as Hc.
  { intros H%substring_contains. vm_compute in H. discriminate. }
  split; [exact Hb|]. split; [exact Hc|].
  exact (sub_block_comments_first_comment _ _ " y /* z */" Hb Hc).
Defined.

(** ** More on the secret scan *)

Section ScanFacts.

Lemma lower_app (a b : string) :
  PyStr.lower (a +:+ b) = PyStr.lower a +:+ PyStr.lower b.
Proof.
  induction a as [|c a IH]; [done|]. rewrite app_cons. simpl.
  by rewrite IH.
Qed.

Lemma lower_char_idem (c : ascii) :
  PyStr.lower_char (PyStr.lower_char c) = PyStr.lower_char c.
Proof. destruct c as [[] [] [] [] [] [] [] []]; reflexivity. Qed.

Lemma lower_idem (s : string) : PyStr.lower (PyStr.lower s) = PyStr.lower s.
Proof.
  induction s as [|c s IH]; [done|]. simpl. by rewrite lower_char_idem, IH.
Qed.

Lemma lower_char_lf (c : ascii) :
  Ascii.eqb (PyStr.lower_char c) PyStr.LF = Ascii.eqb c PyStr.LF.
Proof. destruct c as [[] [] [] [] [] [] [] []]; reflexivity. Qed.

(** Lowercasing keeps the lines apart. *)
Lemma split_lines_lower (s : string) :
  PyStr.split_lines (PyStr.lower s) = map PyStr.lower (PyStr.split_lines s).
Proof.
  induction s as [|c s IH]; [done|]. cbn [PyStr.lower PyStr.split_lines].
  rewrite lower_char_lf, IH.
  destruct (Ascii.eqb c PyStr.LF); [done|].
  by destruct (PyStr.split_lines s).
Qed.

Lemma first_line_prefix (s l : string) (ls : list string) :
  PyStr.split_lines s = l :: ls -> exists b, s = l +:+ b.
Proof.
  revert l ls. induction s as [|c s IH]; intros l ls; cbn [PyStr.split_lines].
  - intros [= <- _]. by exists "".
  - destruct (Ascii.eqb c PyStr.LF).
    + intros [= <- _]. by exists (String c s).
    + destruct (PyStr.split_lines s) as [|l' ls'] eqn:E.
      * intros [= <- _]. by destruct (split_lines_nonempty s).
      * intros [= <- _]. destruct (IH l' ls' eq_refl) as [b ->].
        by exists b.
Qed.

Lemma line_substring (s line : string) :
  In line (PyStr.split_lines s) -> substring line s.
Proof.
  revert line. induction s as [|c s IH]; intros line; cbn [PyStr.split_lines].
  - intros [<-|[]]. apply substring_refl.
  - destruct (Ascii.eqb c PyStr.LF).
    + intros [<-|Hin].
      * by exists "", (String c s).
      * by apply substring_tail, IH.
    + destruct (PyStr.split_lines s) as [|l ls] eqn:E;
        [by destruct (split_lines_nonempty s)|].
      intros [<-|Hin].
      * destruct (first_line_prefix s l ls E) as [b ->]. by exists "", b.
      * apply substring_tail, IH. by right.
Qed.

(** A text without line feed that occurs in a content occurs in one of its
    lines. *)
Lemma substring_line (s k : string) :
  no_lf k -> substring k s ->
  exists line, In line (PyStr.split_lines s) /\ substring k line.
Proof.
  intros Hk [a [b ->]]. induction a as [|c a IH].
  - rewrite app_nil_l, split_lines_prefix by done.
    pose proof (split_lines_nonempty b).
    destruct (PyStr.split_lines b) as [|l ls]; [done|].
    exists (k +:+ l). split; [by left|]. by exists "", l.
  - destruct IH as [line [Hin Hsub]].
    rewrite app_cons. cbn [PyStr.split_lines].
    destruct (Ascii.eqb c PyStr.LF).
    + exists line. split; [by right|done].
    + destruct (PyStr.split_lines (a +:+ k +:+ b)) as [|l ls]; [done|].
      destruct Hin as [<-|Hin].
      * exists (String c l). split; [by left|]. by apply substring_tail.
      * exists line. split; [by right|done].
Qed.

Lemma keywords_no_lf (k : string) : In k keywords -> no_lf k.
Proof.
  unfold keywords. simpl.
  intros [<-|[<-|[<-|[<-|[<-|[<-|[<-|[]]]]]]]]; repeat split; discriminate.
Qed.

(** A line is flagged exactly when one of the five core keywords occurs in
    its lowercased text. *)
Lemma flagged_core (line : string) :
  flagged line <->
  exists k, In k core_keywords /\ substring k (PyStr.lower line).
Proof.
  unfold flagged, substring. split.
  - intros [k [Hk Hsub]]. unfold keywords in Hk. simpl in Hk.
    destruct Hk as [<-|[<-|[<-|[<-|[<-|[<-|[<-|[]]]]]]]];
      try (eexists; split; [|exact Hsub]; simpl; tauto).
    + exists "key". split; [simpl; tauto|].
      eapply substring_trans; [|exact Hsub]. by exists "api_", "".
    + exists "key". split; [simpl; tauto|].
      eapply substring_trans; [|exact Hsub]. by exists "access_", "".
  - intros [k [Hk Hsub]]. exists k. split; [|done].
    unfold core_keywords in Hk. unfold keywords. simpl in *. tauto.
Qed.

Lemma scan_lines_nil (lines : list string) (n : nat) :
  scan_lines n lines = [] <-> forall line, In line lines -> ~ flagged line.
Proof.
  revert n. induction lines as [|line rest IH]; intros n; cbn [scan_lines].
  - split; [by intros _ ? []|done].
  - destruct (existsb _ keywords) eqn:E.
    + split; [done|]. intros H. exfalso. apply (H line); [by left|].
      by apply flagged_spec.
    + rewrite IH. split.
      * intros H l [<-|Hl]; [|by apply H].
        intros Hf%flagged_spec. congruence.
      * intros H l Hl. apply H. by right.
Qed.

Lemma scan_lines_app (l1 l2 : list string) (n : nat) :
  scan_lines n (l1 ++ l2)
  = scan_lines n l1 ++ scan_lines (n + length l1) l2.
Proof.
  revert n. induction l1 as [|line l1 IH]; intros n;
    cbn [scan_lines List.app length].
  - by rewrite Nat.add_0_r.
  - rewrite IH. replace (S n + length l1) with (n + S (length l1)) by lia.
    by destruct (existsb _ keywords).
Qed.

Lemma split_lines_app_nl (a b : string) :
  PyStr.split_lines (a +:+ PyStr.nl +:+ b)
  = PyStr.split_lines a ++ PyStr.split_lines b.
Proof.
  induction a as [|c a IH].
  - rewrite app_nil_l.
    change (PyStr.nl +:+ b) with (String PyStr.LF b).
    cbn [PyStr.split_lines]. by rewrite Ascii.eqb_refl.
  - rewrite app_cons. cbn [PyStr.split_lines]. rewrite IH.
    destruct (Ascii.eqb c PyStr.LF); [done|].
    pose proof (split_lines_nonempty a).
    by destruct (PyStr.split_lines a).
Qed.

End ScanFacts.

(** X12: [warn_about_potential_secrets] returns no warning exactly when the
    lowercased content has none of [password], [secret], [key], [token] and
    [credential] in it; the keywords [api_key] and [access_key] contain
    [key] and change nothing. *)
Theorem warn_about_potential_secrets_silent (content : string) :
  warn_about_potential_secrets content = [] <->
  forall k, In k core_keywords -> ~ substring k (PyStr.lower content).
Proof.
  unfold warn_about_potential_secrets. rewrite scan_lines_nil. split.
  - intros Hnone k Hk Hsub.
    assert (no_lf k) as Hlf.
    { apply keywords_no_lf. unfold core_keywords in Hk. unfold keywords.
      simpl in *. tauto. }
    destruct (substring_line _ k Hlf Hsub) as [l' [Hin Hl']].
    rewrite split_lines_lower in Hin.
    apply in_map_iff in Hin as [line [<- Hin]].
    apply (Hnone line Hin). apply flagged_core. eauto.
  - intros Hnone line Hin [k [Hk Hsub]]%flagged_core.
    apply (Hnone k Hk). eapply substring_trans; [exact Hsub|].
    apply line_substring. rewrite split_lines_lower. by apply in_map.
Qed.

(** X13: the scan does not depend on the case of the content: the scan of
    the lowercased content has a warning about line [i] exactly when the
    scan of the content has one. *)
Theorem warn_about_potential_secrets_case (content : string) (i : nat) :
  reported_for i (warn_about_potential_secrets (PyStr.lower content)) = [] <->
  reported_for i (warn_about_potential_secrets content) = [].
Proof.
  assert (forall line, flagged (PyStr.lower line) <-> flagged line) as Hcase.
  { intros line. unfold flagged. by rewrite lower_idem. }
  unfold warn_about_potential_secrets.
  rewrite !reported_for_scan_lines, split_lines_lower, nth_error_map.
  case_decide; [done|].
  destruct (nth_error (PyStr.split_lines content) (i - 1)) as [line|];
    [|done].
  simpl. destruct (flagged_dec (PyStr.lower line)) as [Hl|Hl],
                  (flagged_dec line) as [Hr|Hr]; try done.
  - exfalso. by apply Hr, Hcase.
  - exfalso. by apply Hl, Hcase.
Qed.

(** X14: the scan of two contents joined by a line feed is the scan of the
    first followed by the scan of the second with its line numbers moved up
    by the number of lines of the first. *)
Theorem warn_about_potential_secrets_join (first second : string) :
  warn_about_potential_secrets (first +:+ PyStr.nl +:+ second)
  = warn_about_potential_secrets first
    ++ scan_lines (1 + length (PyStr.split_lines first))
                  (PyStr.split_lines second).
Proof.
  unfold warn_about_potential_secrets.
  by rewrite split_lines_app_nl, scan_lines_app.
Qed.

(** ** More on packing *)

Section PackFacts.

Lemma mul_length (c : ascii) (n : nat) :
  String.length (PyStr.mul (String c "") n) = n.
Proof.
  induction n as [|n IH]; [done|]. cbn [PyStr.mul].
  by rewrite app_length, IH.
Qed.

Lemma shown_raw (self : TerraformPacker) (content : string) :
  remove_comments self = false -> shown self content = content.
Proof. intros H. unfold shown. by rewrite H. Qed.

Lemma content_warnings_raw (self : TerraformPacker) (fs : node)
    (files : list Path) :
  remove_comments self = false ->
  flat_map (content_warnings self fs) files
  = flat_map (prescan_warnings self fs) files.
Proof.
  intros Hrc. induction files as [|file files IH]; [done|].
  simpl. rewrite IH. f_equal.
  unfold content_warnings, prescan_warnings.
  destruct (open_read fs file); [|done]. by rewrite shown_raw.
Qed.

(** Every warning of a scan is a line number and a text. *)
Lemma scan_lines_shape (lines : list string) (n : nat) (w : string) :
  In w (scan_lines n lines) ->
  exists i line, n <= i /\ In line lines /\ w = warning_text i line.
Proof.
  revert n. induction lines as [|line rest IH]; intros n; cbn [scan_lines];
    [done|].
  assert (In w (scan_lines (S n) rest) ->
          exists i l, n <= i /\ In l (line :: rest) /\ w = warning_text i l)
    as Hrest.
  { intros [i [l [Hi [Hl ->]]]]%IH. exists i, l.
    split; [lia|]. split; [by right|done]. }
  destruct (existsb _ keywords); [|done].
  intros [<-|Hin]; [|auto]. exists n, line. split; [lia|]. by split; [left|].
Qed.

End PackFacts.

(** X15: a run that discovers no file writes the title, the two banners
    without a warning list and the two section headings with nothing under
    them, keeps no warning and prints nothing. *)
Theorem pack_files_nothing_found (self self' : TerraformPacker) (fs : node) :
  find_relevant_files self fs = Ok ([], self') ->
  exists st,
    pack_files self fs = Ok (st, self') /\
    output st =
      "Terraform Infrastructure as Code Package (tfpecker output)"
      +:+ PyStr.nl +:+ PyStr.mul "=" 50 +:+ PyStr.nl +:+ PyStr.nl
      +:+ PyStr.mul "!" 50 +:+ PyStr.nl +:+ reminder
      +:+ PyStr.mul "!" 50 +:+ PyStr.nl +:+ PyStr.nl
      +:+ "Repository Structure" +:+ PyStr.nl
      +:+ PyStr.mul "=" 20 +:+ PyStr.nl +:+ PyStr.nl
      +:+ PyStr.nl +:+ "File Contents" +:+ PyStr.nl
      +:+ PyStr.mul "=" 20 +:+ PyStr.nl +:+ PyStr.nl
      +:+ PyStr.nl +:+ PyStr.mul "!" 50 +:+ PyStr.nl +:+ reminder
      +:+ PyStr.mul "!" 50 +:+ PyStr.nl /\
    all_warnings st = [] /\ console st = [].
Proof.
  intros Hfind. eexists. split; [apply (pack_files_layout _ _ _ _ Hfind)|].
  cbn [output all_warnings console flat_map map List.app].
  split; [|done].
  unfold Layout.title, Layout.leading_banner, Layout.structure,
    Layout.contents, Layout.trailing_banner, Layout.rule.
  cbn [Layout.warning_list Layout.listing Layout.blocks].
  by rewrite !app_assoc, ?app_nil_l, ?app_nil_r.
Qed.

Lemma pack_files_nothing_found_witness :
  let self := init [] "terraform_pecked.txt" false true true in
  find_relevant_files self (Dir []) = Ok ([], self) /\
  exists st, pack_files self (Dir []) = Ok (st, self) /\
             all_warnings st = [] /\ console st = [].
Proof.
  intros self.
  assert (find_relevant_files self (Dir []) = Ok ([], self)) as Hfind.
  { rewrite find_relevant_files_ok by (intros _; apply init_has_md).
    vm_compute. reflexivity. }
  split; [exact Hfind|].
  destruct (pack_files_nothing_found self self (Dir []) Hfind)
    as [st [Hrun [_ [Hw Hc]]]].
  exists st. split; [exact Hrun|]. split; [exact Hw | exact Hc].
Defined.

(** X16: with comment stripping off, whatever the number of files, the
    content pass finds again exactly what the pre-scan found: the list of
    warnings at the end of the run, which the trailing banner shows, is the
    list of the leading banner twice over. *)
Theorem pack_files_warnings_twice (self self' : TerraformPacker) (fs : node)
    (files : list Path) :
  find_relevant_files self fs = Ok (files, self') ->
  remove_comments self = false ->
  let found := flat_map (prescan_warnings self fs) files in
  exists st,
    pack_files self fs = Ok (st, self') /\
    all_warnings st = found ++ found /\
    output st =
      Layout.title
      +:+ Layout.leading_banner found
      +:+ Layout.structure (map (rel_of self) files)
      +:+ Layout.contents
            (map (fun file => (rel_of self file, content_body self fs file))
                 files)
      +:+ Layout.trailing_banner (found ++ found).
Proof.
  intros Hfind Hrc found. eexists.
  split; [apply (pack_files_layout _ _ _ _ Hfind)|].
  cbn [output all_warnings]. rewrite (content_warnings_raw _ _ _ Hrc).
  by split.
Qed.

Lemma pack_files_warnings_twice_witness :
  let self := init [] "terraform_pecked.txt" false false false in
  let warning :=
    "f.tf: Line 1 might contain sensitive information: password = 1" in
  find_relevant_files self Examples.secret_line = Ok ([["f.tf"]], self) /\
  remove_comments self = false /\
  exists st, pack_files self Examples.secret_line = Ok (st, self) /\
             all_warnings st = [warning; warning].
Proof.
  intros self warning.
  assert (find_relevant_files self Examples.secret_line
          = Ok ([["f.tf"]], self)) as Hfind.
  { rewrite find_relevant_files_ok by (intros _; apply init_has_md).
    vm_compute. reflexivity. }
  assert (remove_comments self = false) as Hrc by reflexivity.
  split; [exact Hfind|]. split; [exact Hrc|].
  destruct (pack_files_warnings_twice self self Examples.secret_line
              [["f.tf"]] Hfind Hrc) as [st [Hrun [Hw _]]].
  exists st. split; [exact Hrun|]. rewrite Hw. vm_compute. reflexivity.
Defined.

(** X17: every warning that a run keeps names a discovered file by its path
    relative to the base path, then a line number and a trimmed line of
    what was read from that file, raw or without its comments. *)
Theorem pack_files_warnings_name_files (self self' : TerraformPacker)
    (fs : node) (files : list Path) :
  find_relevant_files self fs = Ok (files, self') ->
  exists st,
    pack_files self fs = Ok (st, self') /\
    forall w, In w (all_warnings st) ->
      exists file rel content i line,
        In file files /\
        relative_to file (base_path self) = Ok rel /\
        open_read fs file = ReadOk content /\
        1 <= i /\
        (In line (PyStr.split_lines content) \/
         In line (PyStr.split_lines (remove_terraform_comments content))) /\
        w = str rel +:+ ": Line " +:+ PyStr.of_nat i
            +:+ " might contain sensitive information: "
            +:+ PyStr.strip line.
Proof.
  intros Hfind. pose proof (found_below self fs _ _ Hfind) as Hbelow.
  eexists. split; [apply (pack_files_layout _ _ _ _ Hfind)|].
  cbn [all_warnings]. intros w Hw.
  assert (exists file text,
            In file files /\
            (In w (tagged (rel_of self file)
                          (warn_about_potential_secrets text))) /\
            exists content,
              open_read fs file = ReadOk content /\
              (text = content \/ text = remove_terraform_comments content))
    as [file [text [Hfile [Hin [content [Hread Htext]]]]]].
  { apply in_app_iff in Hw as [Hw|Hw];
      apply in_flat_map in Hw as [file [Hfile Hw]]; exists file.
    - unfold prescan_warnings in Hw.
      destruct (open_read fs file) as [content|] eqn:E; [|done].
      exists content. split; [done|]. split; [done|]. eauto.
    - unfold content_warnings, shown in Hw.
      destruct (open_read fs file) as [content|] eqn:E; [|done].
      eexists. split; [done|]. split; [exact Hw|]. exists content.
      split; [done|]. destruct (remove_comments self); auto. }
  unfold below in Hbelow. rewrite Forall_forall in Hbelow.
  destruct (Hbelow file ltac:(by apply list_elem_of_In)) as [rel Hrel].
  unfold rel_of in Hin. rewrite Hrel in Hin.
  apply in_map_iff in Hin as [w0 [<- Hw0]].
  apply scan_lines_shape in Hw0 as [i [line [Hi [Hline ->]]]].
  exists file, rel, content, i, line. repeat split; try done.
  - destruct Htext as [->| ->]; auto.
  - unfold warning_text, warning_head. by rewrite !app_assoc.
Qed.

Lemma pack_files_warnings_name_files_witness :
  let self := init [] "terraform_pecked.txt" false false false in
  find_relevant_files self Examples.secret_line = Ok ([["f.tf"]], self) /\
  exists st, pack_files self Examples.secret_line = Ok (st, self) /\
    forall w, In w (all_warnings st) ->
      exists file rel content i line,
        In file [["f.tf"]] /\
        relative_to file (base_path self) = Ok rel /\
        open_read Examples.secret_line file = ReadOk content /\
        1 <= i /\
        (In line (PyStr.split_lines content) \/
         In line (PyStr.split_lines (remove_terraform_comments content))) /\
        w = str rel +:+ ": Line " +:+ PyStr.of_nat i
            +:+ " might contain sensitive information: "
            +:+ PyStr.strip line.
Proof.
  intros self.
  assert (find_relevant_files self Examples.secret_line
          = Ok ([["f.tf"]], self)) as Hfind.
  { rewrite find_relevant_files_ok by (intros _; apply init_has_md).
    vm_compute. reflexivity. }
  split; [exact Hfind|].
  exact (pack_files_warnings_name_files self self Examples.secret_line
           [["f.tf"]] Hfind).
Defined.

(** X18: in the contents section the rule under the header line of a file
    is as long as the header line. *)
Theorem write_contents_rule_length (self : TerraformPacker) (fs : node)
    (file rel : Path) (st : run) :
  relative_to file (base_path self) = Ok rel ->
  let header := "File: " +:+ str rel in
  let rule := PyStr.mul "-" (PyStr.len (str rel) + 6) in
  write_contents self fs [file] st
  = Ok {| output :=
            output st +:+ header +:+ PyStr.nl +:+ rule +:+ PyStr.nl
            +:+ PyStr.nl +:+ content_body self fs file +:+ PyStr.nl
            +:+ PyStr.nl;
          all_warnings := all_warnings st ++ content_warnings self fs file;
          console := console st |} /\
  PyStr.len rule = PyStr.len header.
Proof.
  intros Hrel header rule. split.
  - rewrite write_contents_spec
      by (constructor; [by exists rel|constructor]).
    cbn [map flat_map Layout.blocks]. unfold Layout.block, Layout.rule, rel_of.
    rewrite Hrel, List.app_nil_r. unfold header, rule.
    by rewrite !app_assoc, ?app_nil_r.
  - unfold rule, header, PyStr.len.
    rewrite mul_length, app_length. simpl. lia.
Qed.

Lemma write_contents_rule_length_witness :
  let self := init [] "terraform_pecked.txt" false false false in
  relative_to ["modules"; "main.tf"] (base_path self)
  = Ok ["modules"; "main.tf"] /\
  PyStr.len (PyStr.mul "-" (PyStr.len (str ["modules"; "main.tf"]) + 6))
  = PyStr.len ("File: " +:+ str ["modules"; "main.tf"]).
Proof.
  intros self.
  assert (relative_to ["modules"; "main.tf"] (base_path self)
          = Ok ["modules"; "main.tf"]) as Hrel by reflexivity.
  split; [exact Hrel|].
  exact (proj2 (write_contents_rule_length self (Dir []) _ _ start Hrel)).
Defined.

(** X19: [main] completes for every combination of arguments and every
    directory tree: the packer that it builds never loses the Markdown
    pattern and no read error escapes.  What it prints is what [pack_files]
    printed, then the line that names the output file, then the reminder. *)
Theorem main_completes (args : Args) (fs : node) :
  let packer :=
    init (arg_path args) (arg_output args) (arg_remove_comments args)
         (arg_include_tfvars args) (arg_include_readme args) in
  exists st,
    pack_files packer fs = Ok (st, packer) /\
    main args fs
    = Ok (st,
          map Line (console st)
          ++ [ Line (Text ("Terraform code packed to " +:+ arg_output args));
               VerifyReminder ]).
Proof.
  intros packer.
  assert (find_relevant_files packer fs
          = Ok (sorted (gathered packer fs), packer)) as Hfind
    by (apply find_relevant_files_ok; intros _; apply init_has_md).
  pose proof (pack_files_layout packer fs _ packer Hfind) as Hrun.
  cbv zeta in Hrun. eexists. split; [exact Hrun|].
  unfold main. fold packer. by rewrite Hrun.
Qed.

Section Multiplicity.

Lemma occurrences_ge_1 (p : Path) (l : list Path) :
  In p l -> 1 <= length (List.filter (fun q => bool_decide (q = p)) l).
Proof.
  induction l as [|q l IH]; [done|]. simpl. intros [->|Hin].
  - rewrite bool_decide_eq_true_2 by done. simpl. lia.
  - destruct (bool_decide (q = p)); simpl; [lia|auto].
Qed.

Lemma in_pass (self : TerraformPacker) (fs : node) (pattern : string)
    (p : Path) :
  In p (rglob fs (base_path self) pattern) ->
  is_ignored (default_ignore self) p = false ->
  In p (List.filter
          (fun path => negb (is_ignored (default_ignore self) path))
          (rglob fs (base_path self) pattern)).
Proof. intros Hin Hk. apply filter_In. by rewrite Hk. Qed.

End Multiplicity.

(** X20: with variable files included, an entry whose name ends in
    [.auto.tfvars] and whose path passes the ignore test is returned at
    least twice, once for the pattern of all variable files and once for
    the pattern of the automatic ones. *)
Theorem auto_tfvars_found_twice (self self' : TerraformPacker) (fs : node)
    (files : list Path) (n : node) (rel : Path) (stem : string) :
  find_relevant_files self fs = Ok (files, self') ->
  include_tfvars self = true ->
  lookup_path fs (base_path self) = Some n ->
  entry_under n rel ->
  name (base_path self ++ rel) = stem +:+ ".auto.tfvars" ->
  is_ignored (default_ignore self) (base_path self ++ rel) = false ->
  2 <= length (List.filter
                 (fun q => bool_decide (q = base_path self ++ rel)) files).
Proof.
  intros [_ [_ ->]]%find_relevant_files_inv Htv Hl Hu Hname Hkeep.
  destruct (sorted_spec (gathered self fs)) as [_ Hperm].
  rewrite (Permutation_length (Permutation_filter _ _ _ Hperm)).
  unfold gathered, collect. rewrite Htv. cbn [flat_map tfvars_patterns].
  rewrite !List.filter_app, !length_app.
  set (p := base_path self ++ rel).
  assert (forall pattern suffix stem',
            pattern = String "*" suffix -> no_star suffix ->
            name p = stem' +:+ suffix ->
            1 <= length (List.filter (fun q => bool_decide (q = p))
                           (List.filter
                              (fun path =>
                                 negb (is_ignored (default_ignore self) path))
                              (rglob fs (base_path self) pattern)))) as Hone.
  { intros pattern suffix stem' -> Hs Hn.
    apply occurrences_ge_1, in_pass; [|done].
    apply rglob_spec. exists n, rel. repeat split; try done.
    apply fnmatch_suffix; eauto. }
  pose proof (Hone "*.tfvars" ".tfvars" (stem +:+ ".auto")) as H1.
  pose proof (Hone "*.auto.tfvars" ".auto.tfvars" stem) as H2.
  specialize (H1 eq_refl ltac:(repeat split; discriminate)
                 ltac:(unfold p; by rewrite Hname, app_assoc)).
  specialize (H2 eq_refl ltac:(repeat split; discriminate) Hname).
  match goal with
  | |- 2 <= _ + _ + (?c + (_ + (?e + _)) + _) =>
      pose proof (H1 : 1 <= c) as H1'; pose proof (H2 : 1 <= e) as H2'
  end.
  lia.
Qed.

Lemma auto_tfvars_found_twice_witness :
  let self := init [] "terraform_pecked.txt" false true false in
  find_relevant_files self Examples.auto_tfvars
  = Ok ([["f.auto.tfvars"]; ["f.auto.tfvars"]], self) /\
  2 <= length (List.filter (fun q => bool_decide (q = ["f.auto.tfvars"]))
                           [["f.auto.tfvars"]; ["f.auto.tfvars"]]).
Proof.
  intros self.
  assert (find_relevant_files self Examples.auto_tfvars
          = Ok ([["f.auto.tfvars"]; ["f.auto.tfvars"]], self)) as Hrun.
  { rewrite find_relevant_files_ok by (intros _; apply init_has_md).
    vm_compute. reflexivity. }
  split; [exact Hrun|].
  apply (auto_tfvars_found_twice self self Examples.auto_tfvars _
           Examples.auto_tfvars ["f.auto.tfvars"] "f" Hrun).
  - reflexivity.
  - reflexivity.
  - simpl. eexists. split; [by left|done].
  - reflexivity.
  - vm_compute. reflexivity.
Defined.
